(** * drone-plugin-kube: create-or-update reconcilers, settlement watcher, dispatch

    A shallow embedding of the Go sources (the kube client helpers with
    [CreateOrUpdateDeployment], [waitUntilDeploymentSettled], [ApplyService],
    ... and [plugin.go] with [Exec] and [handleYamlConfig]).

    The Kubernetes control plane is outside the program.  It is a type class
    of reply functions over an arbitrary cluster state, so every theorem
    holds whatever the cluster answers.  A Go function becomes a computation
    that threads the cluster state, records the ordered list of externally
    visible effects it performs (API requests, timer and channel operations)
    and either returns or panics.  Calls to [log.Print] are not recorded. *)

From Stdlib Require Import String Ascii ZArith List Bool Lia.
Import ListNotations.
Open Scope string_scope.
Open Scope list_scope.
Open Scope Z_scope.

(** ** Go values *)

(** The dynamic types an [error] interface value takes in this program. *)
Inductive error : Type :=
| StatusError (code : Z) (message : string)   (* kubeErrors.StatusError *)
| errorString (text : string)                 (* errors.New *)
| wrapError (text : string) (inner : error)   (* fmt.Errorf with %w *)
| foreignError (text : string).               (* any other dynamic type *)

(** [err.Error()]. *)
Definition Error (err : error) : string :=
  match err with
  | StatusError _ message => message
  | errorString text => text
  | wrapError text _ => text
  | foreignError text => text
  end.

(** [fmt.Errorf(prefix + "%w", err)]. *)
Definition Errorf_w (prefix : string) (err : error) : error :=
  wrapError (String.append prefix (Error err)) err.

(** The type assertion of [err] to a pointer to [kubeErrors.StatusError],
    followed by [statusError.Status().Code]: the code when the assertion
    succeeds. *)
Definition asStatusError (err : error) : option Z :=
  match err with
  | StatusError code _ => Some code
  | _ => None
  end.

Definition StatusNotFound : Z := 404.

Module metaV1.
Record ObjectMeta : Type := {
  Name : string;
  Namespace : string;
  ResourceVersion : string
}.

Record ListOptions : Type := {
  FieldSelector : string;
  Watch : bool
}.
End metaV1.

(** The five typed clients the program uses, named as their accessors
    ([Deployments(namespace)], [Services(namespace)], ...). *)
Inductive Kind : Type :=
| Deployments | ConfigMaps | Services | Ingresses | CronJobs.

(** One document.  The program reads the name, the namespace and, for a
    Deployment, [Status.UnavailableReplicas] (an int32); everything else is
    carried along untouched, so the five Go struct types share this record
    and the kind is carried by the client that is called. *)
Record Resource : Type := {
  ObjectMeta : metaV1.ObjectMeta;
  Spec : string;
  UnavailableReplicas : Z
}.

(** [o.Name] and [o.Namespace], promoted from the embedded [ObjectMeta]. *)
Definition GetName (o : Resource) : string := metaV1.Name (ObjectMeta o).
Definition GetNamespace (o : Resource) : string := metaV1.Namespace (ObjectMeta o).

(** A [runtime.Object] interface value, by dynamic type. *)
Inductive runtimeObject : Type :=
| Deployment (o : Resource)
| ConfigMap (o : Resource)
| Service (o : Resource)
| Ingress (o : Resource)
| CronJob (o : Resource)
| Status (code : Z) (message : string)   (* metaV1.Status *)
| OtherObject (typeName : string).

(** [watch.Event]; [Object] is [None] for the nil interface, as in the zero
    event a closed channel yields. *)
Record Event : Type := {
  Type_ : string;
  Object : option runtimeObject
}.

Definition zeroEvent : Event := {| Type_ := ""; Object := None |}.

(** [watch.Interface].  [ResultChan] lists the events the channel hands to
    the receiving [select], in order, before the deadline timer wins the
    race; once they are used up the timer case is the one that fires. *)
Record Watcher : Type := {
  watchId : nat;
  ResultChan : list Event
}.

(** ** Effects *)

Inductive Effect : Type :=
| CallGet (k : Kind) (namespace name : string)
| CallCreate (k : Kind) (namespace : string) (obj : Resource)
| CallUpdate (k : Kind) (namespace : string) (obj : Resource)
| CallWatch (k : Kind) (namespace : string) (opts : metaV1.ListOptions)
| Subscribed (w : Watcher)      (* the Watch call handed out a subscription *)
| Stopped (w : Watcher)         (* watch.Interface.Stop *)
| TimerStarted (d : Z)          (* time.NewTimer, duration in nanoseconds *)
| Received (ev : Event)         (* a receive on ResultChan() completed *)
| TimerFired.                   (* a receive on timer.C completed *)

(** The control plane: what it answers to each request, and its next state. *)
Class Clientset (Cluster : Type) : Type := {
  serveGet : Kind -> string -> string -> Cluster -> (Resource + error) * Cluster;
  serveCreate : Kind -> string -> Resource -> Cluster -> (Resource + error) * Cluster;
  serveUpdate : Kind -> string -> Resource -> Cluster -> (Resource + error) * Cluster;
  serveWatch : Kind -> string -> metaV1.ListOptions -> Cluster -> (Watcher + error) * Cluster
}.

Inductive Outcome (A : Type) : Type :=
| Returns (a : A)
| Panics (reason : string).
Arguments Returns {A} a.
Arguments Panics {A} reason.

(** A computation: from the cluster state to an outcome, the effects
    performed (oldest first) and the cluster state left behind. *)
Definition Run (Cluster A : Type) : Type :=
  Cluster -> Outcome A * list Effect * Cluster.

Definition ret {Cluster A} (a : A) : Run Cluster A :=
  fun c => (Returns a, [], c).

Definition panic {Cluster A} (reason : string) : Run Cluster A :=
  fun c => (Panics reason, [], c).

Definition bind {Cluster A B} (m : Run Cluster A) (f : A -> Run Cluster B)
  : Run Cluster B :=
  fun c =>
    match m c with
    | (Returns a, t1, c1) =>
        match f a c1 with
        | (r, t2, c2) => (r, t1 ++ t2, c2)
        end
    | (Panics reason, t1, c1) => (Panics reason, t1, c1)
    end.

Definition emit {Cluster} (e : Effect) : Run Cluster unit :=
  fun c => (Returns tt, [e], c).

Notation "x <- m ;; k" := (bind m (fun x => k))
  (at level 61, m at next level, right associativity).
Notation "m ;;; k" := (bind m (fun _ => k))
  (at level 61, right associativity).

Definition outcome {Cluster A} (r : Outcome A * list Effect * Cluster) : Outcome A :=
  fst (fst r).
Definition effects {Cluster A} (r : Outcome A * list Effect * Cluster) : list Effect :=
  snd (fst r).
Definition cluster {Cluster A} (r : Outcome A * list Effect * Cluster) : Cluster :=
  snd r.

(** ** The typed clients *)

Section Client.
Context {Cluster : Type} {client : Clientset Cluster}.

Definition Get (k : Kind) (namespace name : string) : Run Cluster (Resource + error) :=
  fun c => let (r, c') := serveGet k namespace name c in
           (Returns r, [CallGet k namespace name], c').

Definition Create (k : Kind) (namespace : string) (obj : Resource)
  : Run Cluster (Resource + error) :=
  fun c => let (r, c') := serveCreate k namespace obj c in
           (Returns r, [CallCreate k namespace obj], c').

Definition Update (k : Kind) (namespace : string) (obj : Resource)
  : Run Cluster (Resource + error) :=
  fun c => let (r, c') := serveUpdate k namespace obj c in
           (Returns r, [CallUpdate k namespace obj], c').

Definition Watch (k : Kind) (namespace : string) (opts : metaV1.ListOptions)
  : Run Cluster (Watcher + error) :=
  fun c => let (r, c') := serveWatch k namespace opts c in
           (Returns r,
            CallWatch k namespace opts ::
              match r with inl w => [Subscribed w] | inr _ => [] end,
            c').

(** [_, err = client.Update(...); return err] and the same for Create. *)
Definition errOf {A} (r : A + error) : option error :=
  match r with
  | inl _ => None
  | inr err => Some err
  end.

(** *** Deployment *)

Definition deploymentExists (namespace name : string)
  : Run Cluster (bool * option error) :=
  r <- Get Deployments namespace name ;;
  match r with
  | inr err =>
      match asStatusError err with
      | Some code =>
          if code =? StatusNotFound then ret (false, None)
          else ret (false, Some err)
      | None => ret (false, Some err)
      end
  | inl _ => ret (true, None)
  end.

Definition CreateOrUpdateDeployment (namespace : string) (deployment : Resource)
  : Run Cluster (option error) :=
  p <- deploymentExists namespace (GetName deployment) ;;
  let '(deploymentExists, err) := p in
  match err with
  | Some err => ret (Some err)
  | None =>
      if deploymentExists then
        r <- Update Deployments namespace deployment ;;
        ret (errOf r)
      else
        r <- Create Deployments namespace deployment ;;
        ret (errOf r)
  end.

Definition stateUpdated : string := "📦 Updated".
Definition stateFailed : string := "⛔️ Failed".

Definition Second : Z := 1000000000.

(** Two's-complement wrap-around of int64 arithmetic. *)
Definition wrap64 (z : Z) : Z := (z + 2 ^ 63) mod 2 ^ 64 - 2 ^ 63.

(** The [for { select { ... } }] loop.  [pending] is what is left of the
    subscription's [ResultChan]: the events the select still receives
    before the timer case fires. *)
Fixpoint observing (pending : list Event) : Run Cluster (string * option error) :=
  match pending with
  | [] =>
      emit TimerFired ;;;
      ret (stateFailed,
           Some (errorString "deployment watcher timed out. Something is wrong"))
  | event :: later =>
      emit (Received event) ;;;
      match Object event with
      | Some (Deployment deployment) =>
          if UnavailableReplicas deployment =? 0 then ret (stateUpdated, None)
          else observing later
      | _ => panic "interface conversion: runtime.Object is not *v1.Deployment"
      end
  end.

Definition waitUntilDeploymentSettled
    (namespace name : string) (timeoutInSeconds : Z)
  : Run Cluster (string * option error) :=
  let fieldSelector := String.concat "=" ["metadata.name"; name] in
  let watchOptions :=
    {| metaV1.FieldSelector := fieldSelector; metaV1.Watch := true |} in
  r <- Watch Deployments namespace watchOptions ;;
  match r with
  | inr err => ret (stateFailed, Some (Errorf_w "watch deployment; " err))
  | inl watcher =>
      g <- Get Deployments namespace name ;;
      match g with
      | inr err => ret (stateFailed, Some (Errorf_w "get deployment; " err))
      | inl liveDeployment =>
          if UnavailableReplicas liveDeployment =? 0 then ret ("📦 Updated", None)
          else
            emit (TimerStarted (wrap64 (timeoutInSeconds * Second))) ;;;
            observing (ResultChan watcher)
      end
  end.

(** *** Service *)

Definition getService (namespace name : string)
  : Run Cluster (option Resource * bool * option error) :=
  r <- Get Services namespace name ;;
  match r with
  | inr err =>
      match asStatusError err with
      | Some code =>
          if code =? StatusNotFound then ret (None, false, None)
          else ret (None, false, Some err)
      | None => ret (None, false, Some err)
      end
  | inl service => ret (Some service, true, None)
  end.

Definition ApplyService (namespace : string) (service : Resource)
  : Run Cluster (option error) :=
  p <- getService namespace (GetName service) ;;
  let '(existingService, exists_, err) := p in
  match err with
  | Some err => ret (Some err)
  | None =>
      if exists_ then
        match existingService with
        | Some existingService =>
            r <- Update Services namespace existingService ;;
            ret (errOf r)
        | None => panic "nil *v1.Service passed to Update"
        end
      else
        r <- Create Services namespace service ;;
        ret (errOf r)
  end.

(** *** ConfigMap *)

Definition configMapExists (namespace name : string)
  : Run Cluster (bool * option error) :=
  r <- Get ConfigMaps namespace name ;;
  match r with
  | inr err =>
      match asStatusError err with
      | Some code =>
          if code =? StatusNotFound then ret (false, None)
          else ret (false, Some err)
      | None => ret (false, Some err)
      end
  | inl _ => ret (true, None)
  end.

Definition ApplyConfigMap (namespace : string) (configMap : Resource)
  : Run Cluster (option error) :=
  p <- configMapExists namespace (GetName configMap) ;;
  let '(exists_, err) := p in
  match err with
  | Some err => ret (Some err)
  | None =>
      if exists_ then
        r <- Update ConfigMaps namespace configMap ;;
        ret (errOf r)
      else
        r <- Create ConfigMaps namespace configMap ;;
        ret (errOf r)
  end.

(** *** Ingress *)

Definition getIngress (namespace name : string)
  : Run Cluster (option Resource * bool * option error) :=
  r <- Get Ingresses namespace name ;;
  match r with
  | inr err =>
      match asStatusError err with
      | Some code =>
          if code =? StatusNotFound then ret (None, false, None)
          else ret (None, false, Some err)
      | None => ret (None, false, Some err)
      end
  | inl ingress => ret (Some ingress, true, None)
  end.

Definition ApplyIngress (namespace : string) (ingress : Resource)
  : Run Cluster (option error) :=
  p <- getIngress namespace (GetName ingress) ;;
  let '(_, exists_, err) := p in
  match err with
  | Some err => ret (Some err)
  | None =>
      if negb exists_ then
        r <- Create Ingresses namespace ingress ;;
        ret (errOf r)
      else
        r <- Update Ingresses namespace ingress ;;
        ret (errOf r)
  end.

(** *** CronJob *)

Definition getCronJob (namespace name : string)
  : Run Cluster (option Resource * bool * option error) :=
  r <- Get CronJobs namespace name ;;
  match r with
  | inr err =>
      match asStatusError err with
      | Some code =>
          if code =? StatusNotFound then ret (None, false, None)
          else ret (None, false, Some err)
      | None => ret (None, false, Some err)
      end
  | inl cronjob => ret (Some cronjob, true, None)
  end.

Definition ApplyCronJob (namespace : string) (cronjob : Resource)
  : Run Cluster (option error) :=
  p <- getCronJob namespace (GetName cronjob) ;;
  let '(_, exists_, err) := p in
  match err with
  | Some err => ret (Some err)
  | None =>
      if negb exists_ then
        r <- Create CronJobs namespace cronjob ;;
        ret (errOf r)
      else
        r <- Update CronJobs namespace cronjob ;;
        ret (errOf r)
  end.

End Client.

(** ** plugin.go *)

Record KubeConfig : Type := {
  Ca : string;
  Server : string;
  Token : string;
  Namespace : string;
  InsecureSkipTLSVerify : bool
}.

Record Plugin : Type := {
  Template : string;
  Config : KubeConfig     (* the field KubeConfig of type KubeConfig *)
}.

(** What [Exec] and [handleYamlConfig] call outside this program. *)
Class Host : Type := {
  (* ioutil.ReadFile, its bytes as a string *)
  ReadFile : string -> string + error;
  (* raymond.Render of the file with the variables taken from os.Environ() *)
  Render : string -> string + error;
  (* Plugin.CreateKubeClient, declared in a file that is not part of these
     sources; the clientset it returns is the [Clientset] instance *)
  CreateKubeClient : Plugin -> option error;
  (* strings.Split, strings.TrimSpace *)
  Split : string -> string -> list string;
  TrimSpace : string -> string;
  (* scheme.Codecs.UniversalDeserializer().Decode *)
  Decode : string -> runtimeObject + error
}.

Section PluginExec.
Context {Cluster : Type} {client : Clientset Cluster} {host : Host}.

(** [p.KubeConfig.Namespace = namespace] on a [Plugin] value. *)
Definition setNamespace (p : Plugin) (namespace : string) : Plugin :=
  {| Template := Template p;
     Config := {| Ca := Ca (Config p);
                  Server := Server (Config p);
                  Token := Token (Config p);
                  Namespace := namespace;
                  InsecureSkipTLSVerify := InsecureSkipTLSVerify (Config p) |} |}.

(** [if p.KubeConfig.Namespace == "" { p.KubeConfig.Namespace = o.Namespace }].
    The method has a value receiver, so [p] is the callee's own copy of
    the caller's struct: the assignment yields the copy the rest of the
    method body reads, and the caller's [Plugin] is untouched. *)
Definition defaultNamespace (p : Plugin) (o : Resource) : Plugin :=
  if (Namespace (Config p) =? "")%string then setNamespace p (GetNamespace o)
  else p.

Definition handleYamlConfig (p : Plugin) (templateYaml : string)
  : Run Cluster (option error) :=
  match Decode templateYaml with
  | inr err => ret (Some err)
  | inl kubernetesObject =>
      match kubernetesObject with
      | Deployment o =>
          let p := defaultNamespace p o in
          err <- CreateOrUpdateDeployment (Namespace (Config p)) o ;;
          match err with
          | Some err => ret (Some err)
          | None =>
              r <- waitUntilDeploymentSettled
                     (Namespace (Config p)) (GetName o) 120 ;;
              let '(state, watchErr) := r in
              ret watchErr
          end
      | ConfigMap o =>
          let p := defaultNamespace p o in
          ApplyConfigMap (Namespace (Config p)) o
      | Service o =>
          let p := defaultNamespace p o in
          ApplyService (Namespace (Config p)) o
      | Ingress o =>
          let p := defaultNamespace p o in
          ApplyIngress (Namespace (Config p)) o
      | CronJob o =>
          let p := defaultNamespace p o in
          ApplyCronJob (Namespace (Config p)) o
      | _ =>
          ret (Some (errorString
                       "⛔️ This plugin doesn't support that resource type"))
      end
  end.

(** The [for _, templateYamlPart := range templateYamlParts] loop of
    [Exec]; every iteration calls the method on [Exec]'s own [p]. *)
Fixpoint applyParts (p : Plugin) (templateYamlParts : list string)
  : Run Cluster (option error) :=
  match templateYamlParts with
  | [] => ret None
  | templateYamlPart :: rest =>
      let templateYamlPart := TrimSpace templateYamlPart in
      if (String.length templateYamlPart =? 0)%nat then applyParts p rest
      else
        err <- handleYamlConfig p templateYamlPart ;;
        match err with
        | Some err => ret (Some err)
        | None => applyParts p rest
        end
  end.

Definition Exec (p : Plugin) : Run Cluster (option error) :=
  if (Server (Config p) =? "")%string then
    ret (Some (errorString "PLUGIN_SERVER is not defined"))
  else if (Token (Config p) =? "")%string then
    ret (Some (errorString "PLUGIN_TOKEN is not defined"))
  else if (Ca (Config p) =? "")%string then
    ret (Some (errorString "PLUGIN_CA is not defined"))
  else if (Template p =? "")%string then
    ret (Some (errorString "PLUGIN_TEMPLATE, or template must be defined"))
  else
    match ReadFile (Template p) with
    | inr err => ret (Some err)
    | inl raw =>
        match Render raw with
        | inr err => ret (Some err)
        | inl templateYaml =>
            match CreateKubeClient p with
            | Some err => ret (Some err)
            | None => applyParts p (Split templateYaml "---")
            end
        end
    end.

End PluginExec.

(** ** Views used to state the properties *)

Section Views.
Context {Cluster : Type} {client : Clientset Cluster}.

(** The existence probe of each kind, its results put in one shape:
    (found, live document, error).  [deploymentExists] and
    [configMapExists] hand back no document at all. *)
Definition probe (k : Kind) (namespace name : string)
  : Run Cluster (bool * option Resource * option error) :=
  match k with
  | Deployments =>
      p <- deploymentExists namespace name ;;
      ret (fst p, None, snd p)
  | ConfigMaps =>
      p <- configMapExists namespace name ;;
      ret (fst p, None, snd p)
  | Services =>
      p <- getService namespace name ;;
      ret (snd (fst p), fst (fst p), snd p)
  | Ingresses =>
      p <- getIngress namespace name ;;
      ret (snd (fst p), fst (fst p), snd p)
  | CronJobs =>
      p <- getCronJob namespace name ;;
      ret (snd (fst p), fst (fst p), snd p)
  end.

(** The reconcile operation of each kind. *)
Definition reconcile (k : Kind) : string -> Resource -> Run Cluster (option error) :=
  match k with
  | Deployments => CreateOrUpdateDeployment
  | ConfigMaps => ApplyConfigMap
  | Services => ApplyService
  | Ingresses => ApplyIngress
  | CronJobs => ApplyCronJob
  end.
End Views.

Definition isCreate (e : Effect) : bool :=
  match e with CallCreate _ _ _ => true | _ => false end.
Definition isUpdate (e : Effect) : bool :=
  match e with CallUpdate _ _ _ => true | _ => false end.
Definition isReceived (e : Effect) : bool :=
  match e with Received _ => true | _ => false end.

Definition count (f : Effect -> bool) (t : list Effect) : nat :=
  length (filter f t).

(** The documents sent in write requests, in order. *)
Definition updatesSent (t : list Effect) : list (Kind * string * Resource) :=
  flat_map (fun e => match e with
                     | CallUpdate k ns obj => [(k, ns, obj)]
                     | _ => []
                     end) t.
Definition createsSent (t : list Effect) : list (Kind * string * Resource) :=
  flat_map (fun e => match e with
                     | CallCreate k ns obj => [(k, ns, obj)]
                     | _ => []
                     end) t.

(** The namespace a request is addressed to. *)
Definition requestNamespace (e : Effect) : option string :=
  match e with
  | CallGet _ ns _ | CallCreate _ ns _ | CallUpdate _ ns _ | CallWatch _ ns _ =>
      Some ns
  | _ => None
  end.

(** Subscriptions handed out and not stopped, by identifier. *)
Fixpoint openSubscriptions (t : list Effect) (opened : list nat) : list nat :=
  match t with
  | [] => opened
  | Subscribed w :: t' => openSubscriptions t' (opened ++ [watchId w])
  | Stopped w :: t' =>
      openSubscriptions t' (filter (fun i => negb (Nat.eqb i (watchId w))) opened)
  | _ :: t' => openSubscriptions t' opened
  end.

Definition isStopped (e : Effect) : bool :=
  match e with Stopped _ => true | _ => false end.

(** ** An in-memory control plane, to run the program on examples *)

Definition Kind_eqb (a b : Kind) : bool :=
  match a, b with
  | Deployments, Deployments | ConfigMaps, ConfigMaps | Services, Services
  | Ingresses, Ingresses | CronJobs, CronJobs => true
  | _, _ => false
  end.

Record FakeCluster : Type := {
  objects : list (Kind * string * string * Resource);
  forbidden : list string;   (* namespaces whose requests are refused *)
  stream : list Event;       (* what a new subscription delivers *)
  nextWatchId : nat
}.

Definition sameKey (k : Kind) (namespace name : string)
    (entry : Kind * string * string * Resource) : bool :=
  let '(k', ns', n', _) := entry in
  Kind_eqb k k' && (namespace =? ns')%string && (name =? n')%string.

Definition isForbidden (c : FakeCluster) (namespace : string) : bool :=
  existsb (fun ns => (ns =? namespace)%string) (forbidden c).

Definition withObjects (c : FakeCluster) (os : list (Kind * string * string * Resource))
  : FakeCluster :=
  {| objects := os; forbidden := forbidden c; stream := stream c;
     nextWatchId := nextWatchId c |}.

Definition fakeGet (k : Kind) (namespace name : string) (c : FakeCluster)
  : (Resource + error) * FakeCluster :=
  if isForbidden c namespace then (inr (StatusError 403 "forbidden"), c)
  else match find (sameKey k namespace name) (objects c) with
       | Some (_, _, _, o) => (inl o, c)
       | None => (inr (StatusError 404 "not found"), c)
       end.

Definition fakeCreate (k : Kind) (namespace : string) (obj : Resource) (c : FakeCluster)
  : (Resource + error) * FakeCluster :=
  if isForbidden c namespace then (inr (StatusError 403 "forbidden"), c)
  else match find (sameKey k namespace (GetName obj)) (objects c) with
       | Some _ => (inr (StatusError 409 "already exists"), c)
       | None => (inl obj, withObjects c (objects c ++ [(k, namespace, GetName obj, obj)]))
       end.

Definition fakeUpdate (k : Kind) (namespace : string) (obj : Resource) (c : FakeCluster)
  : (Resource + error) * FakeCluster :=
  if isForbidden c namespace then (inr (StatusError 403 "forbidden"), c)
  else match find (sameKey k namespace (GetName obj)) (objects c) with
       | Some _ =>
           (inl obj,
            withObjects c
              (map (fun entry => if sameKey k namespace (GetName obj) entry
                                 then (k, namespace, GetName obj, obj) else entry)
                   (objects c)))
       | None => (inr (StatusError 404 "not found"), c)
       end.

Definition fakeWatch (k : Kind) (namespace : string) (opts : metaV1.ListOptions)
    (c : FakeCluster) : (Watcher + error) * FakeCluster :=
  if isForbidden c namespace then (inr (StatusError 403 "forbidden"), c)
  else (inl {| watchId := nextWatchId c; ResultChan := stream c |},
        {| objects := objects c; forbidden := forbidden c; stream := stream c;
           nextWatchId := S (nextWatchId c) |}).

#[export] Instance fakeClientset : Clientset FakeCluster := {
  serveGet := fakeGet;
  serveCreate := fakeCreate;
  serveUpdate := fakeUpdate;
  serveWatch := fakeWatch
}.

Definition mkResource (name namespace version spec : string) (unavailable : Z)
  : Resource :=
  {| ObjectMeta := {| metaV1.Name := name; metaV1.Namespace := namespace;
                      metaV1.ResourceVersion := version |};
     Spec := spec;
     UnavailableReplicas := unavailable |}.

Definition emptyCluster : FakeCluster :=
  {| objects := []; forbidden := ["locked"]; stream := []; nextWatchId := 0 |}.

(** ** A host for examples: files and decodings looked up in tables *)

(** [strings.Split] for a separator of at least one byte. *)
Fixpoint splitFrom (sep : string) (skip : nat) (cur : string) (s : string)
  : list string :=
  match s with
  | EmptyString => [cur]
  | String ch rest =>
      match skip with
      | S n => splitFrom sep n cur rest
      | O =>
          if String.prefix sep s
          then cur :: splitFrom sep (String.length sep - 1) "" rest
          else splitFrom sep 0 (String.append cur (String ch "")) rest
      end
  end.

Definition splitOn (s sep : string) : list string := splitFrom sep 0 "" s.

Definition isSpace (ch : ascii) : bool :=
  match nat_of_ascii ch with
  | 9%nat | 10%nat | 11%nat | 12%nat | 13%nat | 32%nat => true
  | _ => false
  end.

Fixpoint trimLeft (s : string) : string :=
  match s with
  | String ch rest => if isSpace ch then trimLeft rest else s
  | EmptyString => EmptyString
  end.

Definition reverse (s : string) : string :=
  string_of_list_ascii (rev (list_ascii_of_string s)).

(** [strings.TrimSpace] on ASCII text. *)
Definition trimSpace (s : string) : string :=
  reverse (trimLeft (reverse (trimLeft s))).

Fixpoint lookupText {A} (key : string) (table : list (string * A)) : option A :=
  match table with
  | [] => None
  | (k, v) :: rest => if (k =? key)%string then Some v else lookupText key rest
  end.

Definition tableHost (files : list (string * string))
    (decodings : list (string * runtimeObject)) : Host :=
  {| ReadFile := fun path =>
       match lookupText path files with
       | Some raw => inl raw
       | None => inr (foreignError "open: no such file or directory")
       end;
     Render := fun raw => inl raw;
     CreateKubeClient := fun _ => None;
     Split := splitOn;
     TrimSpace := trimSpace;
     Decode := fun text =>
       match lookupText text decodings with
       | Some o => inl o
       | None => inr (foreignError "couldn't get version/kind; json parse error")
       end |}.

Definition demoPlugin (namespace : string) : Plugin :=
  {| Template := "deploy.yaml";
     Config := {| Ca := "ca"; Server := "https://kube"; Token := "token";
                  Namespace := namespace; InsecureSkipTLSVerify := false |} |}.

(** ** Event streams *)

(** The event carries a Deployment, so the type assertion succeeds. *)
Definition carriesDeployment (ev : Event) : bool :=
  match Object ev with
  | Some (Deployment _) => true
  | _ => false
  end.

(** The event carries a Deployment that still has unavailable replicas. *)
Definition stillUnavailable (ev : Event) : bool :=
  match Object ev with
  | Some (Deployment d) => negb (UnavailableReplicas d =? 0)
  | _ => false
  end.

(** The event carries a Deployment with no unavailable replica. *)
Definition allAvailable (ev : Event) : bool :=
  match Object ev with
  | Some (Deployment d) => UnavailableReplicas d =? 0
  | _ => false
  end.

Definition deploymentEvent (o : Resource) : Event :=
  {| Type_ := "MODIFIED"; Object := Some (Deployment o) |}.

Definition watchOptionsFor (name : string) : metaV1.ListOptions :=
  {| metaV1.FieldSelector := String.concat "=" ["metadata.name"; name];
     metaV1.Watch := true |}.

Definition timedOut : error :=
  errorString "deployment watcher timed out. Something is wrong".

(** The namespace a document is reconciled in: the override when there is
    one, the document's own otherwise. *)
Definition resolvedNamespace (p : Plugin) (o : Resource) : string :=
  if (Namespace (Config p) =? "")%string then GetNamespace o
  else Namespace (Config p).

(** The document a decoded object of a supported kind carries. *)
Definition supported (o : runtimeObject) : option Resource :=
  match o with
  | Deployment r | ConfigMap r | Service r | Ingress r | CronJob r => Some r
  | _ => None
  end.

(** ** Example clusters and manifests *)

Definition web (unavailable : Z) : Resource :=
  mkResource "web" "prod" "41" "replicas: 3" unavailable.

Definition clusterWith (os : list (Kind * string * string * Resource))
    (evs : list Event) : FakeCluster :=
  {| objects := os; forbidden := ["locked"]; stream := evs; nextWatchId := 0 |}.

(** ** Pieces of runs named in the statements *)

Definition conversionPanic : string :=
  "interface conversion: runtime.Object is not *v1.Deployment".

Definition opening ns name (w : Watcher) : list Effect :=
  [CallWatch Deployments ns (watchOptionsFor name); Subscribed w;
   CallGet Deployments ns name].

Definition rollingCluster (evs : list Event) : FakeCluster :=
  clusterWith [(Deployments, "default", "web", web 2)] evs.

Definition settledCluster : FakeCluster :=
  clusterWith [(Deployments, "default", "web", web 0)] [].

Definition subscription (c : FakeCluster) : Watcher :=
  {| watchId := nextWatchId c; ResultChan := stream c |}.

Definition afterWatch (c : FakeCluster) : FakeCluster :=
  {| objects := objects c; forbidden := forbidden c; stream := stream c;
     nextWatchId := S (nextWatchId c) |}.

Definition validConfig (p : Plugin) : bool :=
  negb (Server (Config p) =? "")%string && negb (Token (Config p) =? "")%string
  && negb (Ca (Config p) =? "")%string && negb (Template p =? "")%string.

(** Every request among the effects is addressed to [namespace]. *)
Definition addressedTo (namespace : string) (t : list Effect) : Prop :=
  forall e ns, In e t -> requestNamespace e = Some ns -> ns = namespace.

Definition demoManifest : string :=
  "settings
---
web
---

---
nightly
".

Definition demoDecodings (second : string) : list (string * runtimeObject) :=
  [("settings", ConfigMap (mkResource "settings" "alpha" "" "colour: blue" 0));
   ("web", Service (mkResource "web" second "" "port: 80" 0));
   ("nightly", CronJob (mkResource "nightly" "gamma" "" "schedule: daily" 0))].

Definition demoHost (second : string) : Host :=
  tableHost [("deploy.yaml", demoManifest)] (demoDecodings second).


(** ** More views of runs *)

Definition isGet (e : Effect) : bool :=
  match e with CallGet _ _ _ => true | _ => false end.
Definition isWatch (e : Effect) : bool :=
  match e with CallWatch _ _ _ => true | _ => false end.
Definition isTimerStarted (e : Effect) : bool :=
  match e with TimerStarted _ => true | _ => false end.

(** [errors.Unwrap]. *)
Definition Unwrap (err : error) : option error :=
  match err with
  | wrapError _ inner => Some inner
  | _ => None
  end.

(** The typed client and the document the type switch of
    [handleYamlConfig] hands a decoded object to. *)
Definition dispatched (o : runtimeObject) : option (Kind * Resource) :=
  match o with
  | Deployment r => Some (Deployments, r)
  | ConfigMap r => Some (ConfigMaps, r)
  | Service r => Some (Services, r)
  | Ingress r => Some (Ingresses, r)
  | CronJob r => Some (CronJobs, r)
  | _ => None
  end.

Definition unsupportedType : error :=
  errorString "⛔️ This plugin doesn't support that resource type".

(** The sub-document is not skipped by the loop of [Exec]. *)
Definition nonBlank {host : Host} (templateYamlPart : string) : bool :=
  negb (String.length (TrimSpace templateYamlPart) =? 0)%nat.

(** ** The substitution variables [Exec] takes from [os.Environ()] *)

(** The text before the first line feed: what a dot-star group can span
    from the start of the text, the dot matching everything but a line
    feed. *)
Fixpoint firstLine (s : string) : string :=
  match s with
  | EmptyString => EmptyString
  | String ch rest =>
      if Ascii.eqb ch "010" then EmptyString else String ch (firstLine rest)
  end.

(** The text cut at its last equals sign: the two dot-star groups around
    the equals sign on a line, the first group being greedy. *)
Fixpoint splitLastEquals (s : string) : option (string * string) :=
  match s with
  | EmptyString => None
  | String ch rest =>
      match splitLastEquals rest with
      | Some (before, after) => Some (String ch before, after)
      | None => if Ascii.eqb ch "=" then Some (EmptyString, rest) else None
      end
  end.

Fixpoint stripPrefix (prefix s : string) : option string :=
  match prefix, s with
  | EmptyString, _ => Some s
  | String a prefix', String b s' =>
      if Ascii.eqb a b then stripPrefix prefix' s' else None
  | String _ _, EmptyString => None
  end.

(** [re.MatchString(value)] and [re.FindStringSubmatch(value)] for the
    expressions of [Exec]: the start of the text, a literal prefix
    (PLUGIN_ or DRONE_), a greedy dot-star group, an equals sign and a
    second dot-star group.  Gives [matches[1]] and [matches[2]] when the
    expression matches. *)
Definition FindStringSubmatch (prefix value : string) : option (string * string) :=
  match stripPrefix prefix value with
  | Some rest => splitLastEquals (firstLine rest)
  | None => None
  end.

(** The Go map [envCtx] as an association list, newest entry first, read
    with [lookupText]: an assignment to a key hides the older ones. *)
Definition assign (envCtx : list (string * string)) (key value : string)
  : list (string * string) :=
  (key, value) :: envCtx.

Section Harvest.
(** [strings.ToLower]. *)
Variable ToLower : string -> string.

(** One iteration of [for _, value := range pluginEnv]. *)
Definition harvestEntry (envCtx : list (string * string)) (value : string)
  : list (string * string) :=
  let envCtx :=
    match FindStringSubmatch "PLUGIN_" value with
    | Some (name, text) => assign envCtx (ToLower name) text
    | None => envCtx
    end in
  match FindStringSubmatch "DRONE_" value with
  | Some (name, text) => assign envCtx (ToLower name) text
  | None => envCtx
  end.

Definition harvest (pluginEnv : list string) : list (string * string) :=
  fold_left harvestEntry pluginEnv [].
End Harvest.

(** The character does not occur in the text. *)
Fixpoint lacks (ch : ascii) (s : string) : bool :=
  match s with
  | EmptyString => true
  | String c rest => negb (Ascii.eqb c ch) && lacks ch rest
  end.

(** The text is empty or begins a new line. *)
Definition endsLine (s : string) : bool :=
  match s with
  | EmptyString => true
  | String ch _ => Ascii.eqb ch "010"
  end.

(** [strings.ToLower] on ASCII text. *)
Definition lowerAscii (ch : ascii) : ascii :=
  let n := nat_of_ascii ch in
  if (65 <=? n)%nat && (n <=? 90)%nat then ascii_of_nat (n + 32) else ch.

Fixpoint toLower (s : string) : string :=
  match s with
  | EmptyString => EmptyString
  | String ch rest => String (lowerAscii ch) (toLower rest)
  end.

(** ** A control plane that refuses every write, for examples *)

Record ReadOnlyCluster : Type := { served : FakeCluster }.

#[export] Instance readOnlyClientset : Clientset ReadOnlyCluster := {
  serveGet := fun k namespace name c =>
    let (r, c') := fakeGet k namespace name (served c) in (r, {| served := c' |});
  serveCreate := fun _ _ _ c => (inr (StatusError 405 "method not allowed"), c);
  serveUpdate := fun _ _ _ c => (inr (StatusError 405 "method not allowed"), c);
  serveWatch := fun k namespace opts c =>
    let (r, c') := fakeWatch k namespace opts (served c) in (r, {| served := c' |})
}.

Definition blankManifest : string :=
  "
---

---
".

Definition deploymentHost : Host :=
  tableHost [("deploy.yaml", "web")] [("web", Deployment (web 2))].

Definition threeThenDone : list Event :=
  [deploymentEvent (web 3); deploymentEvent (web 2); deploymentEvent (web 1);
   deploymentEvent (web 0); zeroEvent].


(** ** Documents reconciled one after the other *)

Section InOrder.
Context {Cluster : Type} {client : Clientset Cluster} {host : Host}.

(** [reconciledInOrder p parts c t c'] : starting from cluster [c], every
    sub-document of [parts] that is not blank once trimmed has been handed
    to [handleYamlConfig], first to last, each on the cluster the one
    before it left, and each returned without error; [t] is their effects
    put end to end in that order and [c'] the cluster the last one left. *)
Inductive reconciledInOrder (p : Plugin)
  : list string -> Cluster -> list Effect -> Cluster -> Prop :=
| inOrder_done c :
    reconciledInOrder p [] c [] c
| inOrder_blank part rest c t c' :
    String.length (TrimSpace part) = 0%nat ->
    reconciledInOrder p rest c t c' ->
    reconciledInOrder p (part :: rest) c t c'
| inOrder_next part rest c t1 c1 t2 c2 :
    String.length (TrimSpace part) <> 0%nat ->
    handleYamlConfig p (TrimSpace part) c = (Returns None, t1, c1) ->
    reconciledInOrder p rest c1 t2 c2 ->
    reconciledInOrder p (part :: rest) c (t1 ++ t2) c2.
End InOrder.


(** * Properties *)

Ltac run_unfold :=
  unfold probe, reconcile, CreateOrUpdateDeployment, ApplyService, ApplyConfigMap,
    ApplyIngress, ApplyCronJob, deploymentExists, configMapExists, getService,
    getIngress, getCronJob, bind, ret, panic, emit, Get, Create, Update,
    outcome, effects, cluster in *.

Section ProbeFacts.
Context {Cluster : Type} {client : Clientset Cluster}.

Lemma probe_found k ns name c live c' :
  serveGet k ns name c = (inl live, c') ->
  probe k ns name c =
    (Returns (true, match k with
                    | Deployments | ConfigMaps => None
                    | _ => Some live
                    end, None),
     [CallGet k ns name], c').
Proof.
  intros Hget. destruct k; run_unfold; rewrite Hget; reflexivity.
Qed.

Lemma probe_failed k ns name c err c' :
  serveGet k ns name c = (inr err, c') ->
  probe k ns name c =
    (Returns (false, None,
              match asStatusError err with
              | Some code => if code =? StatusNotFound then None else Some err
              | None => Some err
              end),
     [CallGet k ns name], c').
Proof.
  intros Hget.
  destruct k; run_unfold; rewrite Hget;
    destruct (asStatusError err) as [code|]; try reflexivity;
    destruct (code =? StatusNotFound); reflexivity.
Qed.

(** C3.  For every kind, when the lookup fails the probe reports the
    resource absent with no document and no error if the failure is a
    StatusError with code 404, and otherwise hands the lookup's error back
    unchanged, with found = false and no document. *)
Theorem probe_not_found_is_absent k ns name c err c' :
  serveGet k ns name c = (inr err, c') ->
  (asStatusError err = Some StatusNotFound ->
   outcome (probe k ns name c) = Returns (false, None, None)) /\
  (asStatusError err <> Some StatusNotFound ->
   outcome (probe k ns name c) = Returns (false, None, Some err)).
Proof.
  intros Hget. rewrite (probe_failed _ _ _ _ _ _ Hget). unfold outcome. simpl.
  split; intros Hcode.
  - rewrite Hcode. rewrite Z.eqb_refl. reflexivity.
  - destruct (asStatusError err) as [code|]; [|reflexivity].
    destruct (Z.eqb_spec code StatusNotFound); [subst; congruence | reflexivity].
Qed.

Lemma reconcile_cases k ns desired c :
  (exists live c1 r c2,
      serveGet k ns (GetName desired) c = (inl live, c1) /\
      serveUpdate k ns (match k with Services => live | _ => desired end) c1 = (r, c2) /\
      reconcile k ns desired c =
        (Returns (errOf r),
         [CallGet k ns (GetName desired);
          CallUpdate k ns (match k with Services => live | _ => desired end)], c2)) \/
  (exists err c1 r c2,
      serveGet k ns (GetName desired) c = (inr err, c1) /\
      asStatusError err = Some StatusNotFound /\
      serveCreate k ns desired c1 = (r, c2) /\
      reconcile k ns desired c =
        (Returns (errOf r),
         [CallGet k ns (GetName desired); CallCreate k ns desired], c2)) \/
  (exists err c1,
      serveGet k ns (GetName desired) c = (inr err, c1) /\
      asStatusError err <> Some StatusNotFound /\
      reconcile k ns desired c =
        (Returns (Some err), [CallGet k ns (GetName desired)], c1)).
Proof.
  destruct (serveGet k ns (GetName desired) c) as [[live|err] c1] eqn:Hget.
  - left.
    destruct (serveUpdate k ns (match k with Services => live | _ => desired end) c1)
      as [r c2] eqn:Hupd.
    exists live, c1, r, c2. split; [reflexivity|]. split; [exact Hupd|].
    destruct k; run_unfold; rewrite Hget; cbn; rewrite Hupd; reflexivity.
  - destruct (asStatusError err) as [code|] eqn:Hcode.
    + destruct (Z.eqb_spec code StatusNotFound) as [->|Hne].
      * right; left.
        destruct (serveCreate k ns desired c1) as [r c2] eqn:Hcre.
        exists err, c1, r, c2. split; [reflexivity|]. split; [exact Hcode|]. split; [exact Hcre|].
        destruct k; run_unfold; rewrite Hget, Hcode; cbn; rewrite Hcre; reflexivity.
      * right; right. exists err, c1. repeat split.
        -- congruence.
        -- apply Z.eqb_neq in Hne.
           destruct k; run_unfold; rewrite Hget, Hcode, Hne; reflexivity.
    + right; right. exists err, c1. repeat split.
      * congruence.
      * destruct k; run_unfold; rewrite Hget, Hcode; reflexivity.
Qed.

(** C1.  For every kind: when the probe reports the resource absent the
    reconcile operation issues exactly one create call and no update call;
    when the probe reports it present it issues exactly one update call and
    no create call; and no invocation issues both a create and an update. *)
Theorem reconcile_issues_one_write k ns desired c :
  let probed := outcome (probe k ns (GetName desired) c) in
  let t := effects (reconcile k ns desired c) in
  (forall doc, probed = Returns (false, doc, None) ->
               count isCreate t = 1%nat /\ count isUpdate t = 0%nat) /\
  (forall doc, probed = Returns (true, doc, None) ->
               count isUpdate t = 1%nat /\ count isCreate t = 0%nat) /\
  ~ (0 < count isCreate t /\ 0 < count isUpdate t)%nat.
Proof.
  cbv zeta.
  destruct (reconcile_cases k ns desired c)
    as [(live & c1 & r & c2 & Hget & _ & Hrun)
       |[(err & c1 & r & c2 & Hget & Hcode & _ & Hrun)
        |(err & c1 & Hget & Hcode & Hrun)]];
    rewrite Hrun.
  - rewrite (probe_found _ _ _ _ _ _ Hget). unfold outcome, effects, count. simpl.
    repeat split; try discriminate; try reflexivity; lia.
  - rewrite (probe_failed _ _ _ _ _ _ Hget), Hcode, Z.eqb_refl.
    unfold outcome, effects, count. simpl.
    repeat split; try discriminate; try reflexivity; lia.
  - rewrite (probe_failed _ _ _ _ _ _ Hget).
    unfold outcome, effects, count. simpl.
    split; [|split].
    + intros doc Hp. exfalso. apply Hcode.
      destruct (asStatusError err) as [code|]; [|discriminate].
      destruct (Z.eqb_spec code StatusNotFound); [subst; reflexivity|discriminate].
    + discriminate.
    + lia.
Qed.

(** C2.  When the resource exists, the one update call of [ApplyService]
    sends the live document the existence check fetched, and the update
    call of every other kind sends the caller's desired document; nothing
    is created. *)
Theorem update_sends_live_service_document k ns desired c live c' :
  serveGet k ns (GetName desired) c = (inl live, c') ->
  let t := effects (reconcile k ns desired c) in
  outcome (probe k ns (GetName desired) c) =
    Returns (true, match k with
                   | Deployments | ConfigMaps => None
                   | _ => Some live
                   end, None) /\
  updatesSent t = [(k, ns, match k with Services => live | _ => desired end)] /\
  createsSent t = [].
Proof.
  intros Hget. cbv zeta.
  rewrite (probe_found _ _ _ _ _ _ Hget).
  destruct (reconcile_cases k ns desired c)
    as [(live' & c1 & r & c2 & Hget' & _ & Hrun)
       |[(err & c1 & r & c2 & Hget' & _)
        |(err & c1 & Hget' & _)]];
    rewrite Hget in Hget'; inversion Hget'; subst.
  rewrite Hrun. repeat split.
Qed.
End ProbeFacts.

Lemma probe_not_found_is_absent_witness :
  outcome (probe Ingresses "default" "web" emptyCluster) = Returns (false, None, None) /\
  outcome (probe Ingresses "locked" "web" emptyCluster)
    = Returns (false, None, Some (StatusError 403 "forbidden")).
Proof.
  split.
  - apply (probe_not_found_is_absent Ingresses "default" "web" emptyCluster
             (StatusError 404 "not found") emptyCluster); reflexivity.
  - apply (probe_not_found_is_absent Ingresses "locked" "web" emptyCluster
             (StatusError 403 "forbidden") emptyCluster); [reflexivity|].
    simpl. discriminate.
Defined.

Lemma reconcile_issues_one_write_witness :
  (count isCreate (effects (reconcile Services "default" (web 0) emptyCluster)) = 1%nat /\
   count isUpdate (effects (reconcile Services "default" (web 0) emptyCluster)) = 0%nat) /\
  (count isUpdate
     (effects (reconcile CronJobs "default" (web 0)
                 (clusterWith [(CronJobs, "default", "web", web 0)] []))) = 1%nat /\
   count isCreate
     (effects (reconcile CronJobs "default" (web 0)
                 (clusterWith [(CronJobs, "default", "web", web 0)] []))) = 0%nat).
Proof.
  split.
  - apply (proj1 (reconcile_issues_one_write Services "default" (web 0) emptyCluster) None).
    reflexivity.
  - apply (proj1 (proj2 (reconcile_issues_one_write CronJobs "default" (web 0)
                           (clusterWith [(CronJobs, "default", "web", web 0)] [])))
             (Some (web 0))).
    reflexivity.
Defined.

Lemma update_sends_live_service_document_witness :
  updatesSent
    (effects (reconcile Services "default" (mkResource "web" "prod" "" "new" 0)
                (clusterWith [(Services, "default", "web", web 0)] [])))
  = [(Services, "default", web 0)].
Proof.
  apply (update_sends_live_service_document Services "default"
           (mkResource "web" "prod" "" "new" 0)
           (clusterWith [(Services, "default", "web", web 0)] [])
           (web 0)
           (clusterWith [(Services, "default", "web", web 0)] [])).
  reflexivity.
Defined.


Section WatcherFacts.
Context {Cluster : Type} {client : Clientset Cluster}.

Lemma observing_nil (c : Cluster) :
  observing [] c = (Returns (stateFailed, Some timedOut), [TimerFired], c).
Proof. reflexivity. Qed.

Lemma observing_cons ev later (c : Cluster) :
  observing (ev :: later) c =
    match Object ev with
    | Some (Deployment d) =>
        if UnavailableReplicas d =? 0
        then (Returns (stateUpdated, None), [Received ev], c)
        else let '(r, t, c') := observing later c in (r, Received ev :: t, c')
    | _ => (Panics conversionPanic, [Received ev], c)
    end.
Proof.
  cbn [observing]. unfold bind, emit, ret, panic.
  destruct (Object ev) as [[d| | | | | |]|]; try reflexivity.
  destruct (UnavailableReplicas d =? 0); [reflexivity|].
  destruct (observing later c) as [[r t] c']. reflexivity.
Qed.

Lemma observing_unavailable_prefix pre rest (c : Cluster) :
  forallb stillUnavailable pre = true ->
  observing (pre ++ rest) c =
    let '(r, t, c') := observing rest c in (r, map Received pre ++ t, c').
Proof.
  induction pre as [|ev pre IH]; intros Hpre.
  - simpl. destruct (observing rest c) as [[r t] c']. reflexivity.
  - simpl in Hpre. apply andb_true_iff in Hpre as [Hev Hpre].
    change ((ev :: pre) ++ rest) with (ev :: (pre ++ rest)).
    rewrite observing_cons. unfold stillUnavailable in Hev.
    destruct (Object ev) as [[d| | | | | |]|]; try discriminate.
    destruct (UnavailableReplicas d =? 0); [discriminate|].
    rewrite (IH Hpre). destruct (observing rest c) as [[r t] c']. reflexivity.
Qed.

Lemma observing_cluster pending (c : Cluster) :
  cluster (observing pending c) = c.
Proof.
  induction pending as [|ev later IH]; [reflexivity|].
  rewrite observing_cons.
  destruct (Object ev) as [[d| | | | | |]|]; try reflexivity.
  destruct (UnavailableReplicas d =? 0); [reflexivity|].
  destruct (observing later c) as [[r t] c'] eqn:E. unfold cluster in *. simpl in *.
  exact IH.
Qed.

Lemma observing_keeps_subscriptions pending (c : Cluster) opened :
  openSubscriptions (effects (observing pending c)) opened = opened /\
  count isStopped (effects (observing pending c)) = 0%nat.
Proof.
  induction pending as [|ev later IH]; [split; reflexivity|].
  rewrite observing_cons.
  destruct (Object ev) as [[d| | | | | |]|]; try (split; reflexivity).
  destruct (UnavailableReplicas d =? 0); [split; reflexivity|].
  destruct (observing later c) as [[r t] c'] eqn:E. unfold effects in *. simpl in *.
  exact IH.
Qed.

Lemma observing_timer_fired pending (c : Cluster) :
  In TimerFired (effects (observing pending c)) ->
  outcome (observing pending c) = Returns (stateFailed, Some timedOut).
Proof.
  induction pending as [|ev later IH]; [reflexivity|].
  rewrite observing_cons.
  destruct (Object ev) as [[d| | | | | |]|];
    try (unfold effects; simpl; intros [Hin|[]]; discriminate).
  destruct (UnavailableReplicas d =? 0);
    [unfold effects; simpl; intros [Hin|[]]; discriminate|].
  destruct (observing later c) as [[r t] c'] eqn:E.
  unfold effects, outcome in *. simpl in *.
  intros [Hin|Hin]; [discriminate|]. exact (IH Hin).
Qed.

Lemma observing_total pending (c : Cluster) :
  forallb carriesDeployment pending = true ->
  exists r, outcome (observing pending c) = Returns r.
Proof.
  induction pending as [|ev later IH]; intros Hall.
  - eexists. reflexivity.
  - simpl in Hall. apply andb_true_iff in Hall as [Hev Hall].
    rewrite observing_cons. unfold carriesDeployment in Hev.
    destruct (Object ev) as [[d| | | | | |]|]; try discriminate.
    destruct (UnavailableReplicas d =? 0); [eexists; reflexivity|].
    destruct (IH Hall) as [r Hr].
    destruct (observing later c) as [[r' t] c']. unfold outcome in *. simpl in *.
    exists r. exact Hr.
Qed.

(** The four ways through [waitUntilDeploymentSettled]. *)
Lemma wait_watch_failed ns name timeout (c : Cluster) err c1 :
  serveWatch Deployments ns (watchOptionsFor name) c = (inr err, c1) ->
  waitUntilDeploymentSettled ns name timeout c =
    (Returns (stateFailed, Some (Errorf_w "watch deployment; " err)),
     [CallWatch Deployments ns (watchOptionsFor name)], c1).
Proof.
  intros Hw. unfold waitUntilDeploymentSettled, bind, Watch, ret.
  fold (watchOptionsFor name). rewrite Hw. reflexivity.
Qed.

Lemma wait_get_failed ns name timeout (c : Cluster) w c1 err c2 :
  serveWatch Deployments ns (watchOptionsFor name) c = (inl w, c1) ->
  serveGet Deployments ns name c1 = (inr err, c2) ->
  waitUntilDeploymentSettled ns name timeout c =
    (Returns (stateFailed, Some (Errorf_w "get deployment; " err)),
     opening ns name w, c2).
Proof.
  intros Hw Hg. unfold waitUntilDeploymentSettled, bind, Watch, Get, ret.
  fold (watchOptionsFor name). rewrite Hw, Hg. reflexivity.
Qed.

Lemma wait_already_settled ns name timeout (c : Cluster) w c1 live c2 :
  serveWatch Deployments ns (watchOptionsFor name) c = (inl w, c1) ->
  serveGet Deployments ns name c1 = (inl live, c2) ->
  UnavailableReplicas live = 0 ->
  waitUntilDeploymentSettled ns name timeout c =
    (Returns ("📦 Updated", None), opening ns name w, c2).
Proof.
  intros Hw Hg Hz. unfold waitUntilDeploymentSettled, bind, Watch, Get, ret.
  fold (watchOptionsFor name). rewrite Hw, Hg, Hz. reflexivity.
Qed.

Lemma wait_observing ns name timeout (c : Cluster) w c1 live c2 :
  serveWatch Deployments ns (watchOptionsFor name) c = (inl w, c1) ->
  serveGet Deployments ns name c1 = (inl live, c2) ->
  UnavailableReplicas live <> 0 ->
  waitUntilDeploymentSettled ns name timeout c =
    let '(r, t, c3) := observing (ResultChan w) c2 in
    (r, opening ns name w ++ TimerStarted (wrap64 (timeout * Second)) :: t, c3).
Proof.
  intros Hw Hg Hz. apply Z.eqb_neq in Hz.
  unfold waitUntilDeploymentSettled, bind, Watch, Get, ret, emit.
  fold (watchOptionsFor name). rewrite Hw, Hg, Hz.
  destruct (observing (ResultChan w) c2) as [[r t] c3]. reflexivity.
Qed.

(** C4, as amended.  Once the watcher has opened its subscription it never
    stops it: whatever the cluster answers and whatever the stream delivers
    (settled, failed fetch, timed out), no Stop is among the effects of the
    invocation and the subscription is still open when the watcher is
    done. *)
Theorem subscription_never_released ns name timeout (c : Cluster) w c1 :
  serveWatch Deployments ns (watchOptionsFor name) c = (inl w, c1) ->
  let run := waitUntilDeploymentSettled ns name timeout c in
  count isStopped (effects run) = 0%nat /\
  openSubscriptions (effects run) [] = [watchId w].
Proof.
  intros Hw. cbv zeta.
  destruct (serveGet Deployments ns name c1) as [[live|err] c2] eqn:Hg.
  - destruct (Z.eq_dec (UnavailableReplicas live) 0) as [Hz|Hz].
    + rewrite (wait_already_settled _ _ _ _ _ _ _ _ Hw Hg Hz). split; reflexivity.
    + rewrite (wait_observing _ _ _ _ _ _ _ _ Hw Hg Hz).
      destruct (observing_keeps_subscriptions (ResultChan w) c2 [watchId w])
        as [Hopen Hstop].
      destruct (observing (ResultChan w) c2) as [[r t] c3].
      unfold effects in *. simpl in *. split; assumption.
  - rewrite (wait_get_failed _ _ _ _ _ _ _ _ Hw Hg). split; reflexivity.
Qed.

(** C5, as amended.  In every run of the watcher in which the deadline timer
    fires, the watcher returns the label [stateFailed], the one the failed
    outcomes carry, together with the error "deployment watcher timed out.
    Something is wrong", which is none of the wrapped errors the failed
    outcomes return. *)
Theorem timeout_returns_failed_label ns name timeout (c : Cluster) :
  let run := waitUntilDeploymentSettled ns name timeout c in
  In TimerFired (effects run) ->
  outcome run = Returns (stateFailed, Some timedOut) /\
  (forall prefix err, timedOut <> Errorf_w prefix err).
Proof.
  cbv zeta. intros Hfired. split; [|discriminate].
  destruct (serveWatch Deployments ns (watchOptionsFor name) c)
    as [[w|err] c1] eqn:Hw.
  - destruct (serveGet Deployments ns name c1) as [[live|err] c2] eqn:Hg.
    + destruct (Z.eq_dec (UnavailableReplicas live) 0) as [Hz|Hz].
      * rewrite (wait_already_settled _ _ _ _ _ _ _ _ Hw Hg Hz) in Hfired.
        unfold effects in Hfired. simpl in Hfired.
        repeat destruct Hfired as [Hfired|Hfired]; try discriminate. contradiction.
      * rewrite (wait_observing _ _ _ _ _ _ _ _ Hw Hg Hz) in *.
        pose proof (observing_timer_fired (ResultChan w) c2) as Hobs.
        destruct (observing (ResultChan w) c2) as [[r t] c3].
        unfold effects, outcome in *. simpl in *.
        repeat destruct Hfired as [Hfired|Hfired]; try discriminate.
        exact (Hobs Hfired).
    + rewrite (wait_get_failed _ _ _ _ _ _ _ _ Hw Hg) in Hfired.
      unfold effects in Hfired. simpl in Hfired.
      repeat destruct Hfired as [Hfired|Hfired]; try discriminate. contradiction.
  - rewrite (wait_watch_failed _ _ _ _ _ _ Hw) in Hfired.
    unfold effects in Hfired. simpl in Hfired.
    repeat destruct Hfired as [Hfired|Hfired]; try discriminate. contradiction.
Qed.

(** C6.  If the initial point-read shows no unavailable replica, the watcher
    returns the updated label with a nil error and receives no event from
    the subscription. *)
Theorem settled_at_first_read ns name timeout (c : Cluster) w c1 live c2 :
  serveWatch Deployments ns (watchOptionsFor name) c = (inl w, c1) ->
  serveGet Deployments ns name c1 = (inl live, c2) ->
  UnavailableReplicas live = 0 ->
  let run := waitUntilDeploymentSettled ns name timeout c in
  outcome run = Returns ("📦 Updated", None) /\
  count isReceived (effects run) = 0%nat.
Proof.
  intros Hw Hg Hz. cbv zeta.
  rewrite (wait_already_settled _ _ _ _ _ _ _ _ Hw Hg Hz). split; reflexivity.
Qed.

(** C7.  After a nonzero initial read, a stream that delivers a
    nonzero-unavailable event and then a zero-unavailable event before the
    deadline makes the watcher return [stateUpdated] with a nil error after
    receiving exactly those two events. *)
Theorem settled_after_two_events ns name timeout (c : Cluster) w c1 live c2
    first second later :
  serveWatch Deployments ns (watchOptionsFor name) c = (inl w, c1) ->
  serveGet Deployments ns name c1 = (inl live, c2) ->
  UnavailableReplicas live <> 0 ->
  ResultChan w = first :: second :: later ->
  stillUnavailable first = true ->
  allAvailable second = true ->
  let run := waitUntilDeploymentSettled ns name timeout c in
  outcome run = Returns (stateUpdated, None) /\
  filter isReceived (effects run) = [Received first; Received second] /\
  count isReceived (effects run) = 2%nat.
Proof.
  intros Hw Hg Hz Hchan Hfirst Hsecond. cbv zeta.
  rewrite (wait_observing _ _ _ _ _ _ _ _ Hw Hg Hz), Hchan.
  rewrite !observing_cons.
  unfold stillUnavailable in Hfirst. unfold allAvailable in Hsecond.
  destruct (Object first) as [[d1| | | | | |]|]; try discriminate.
  destruct (UnavailableReplicas d1 =? 0); [discriminate|].
  destruct (Object second) as [[d2| | | | | |]|]; try discriminate.
  rewrite Hsecond. repeat split.
Qed.

(** C10.  In the observing loop every received event goes through the
    unchecked conversion to a Deployment: on a stream whose events all carry
    Deployments the watcher returns, and a stream that delivers an event
    carrying anything else, after events that keep the loop going, makes
    the watcher panic on that event instead of returning an outcome. *)
Theorem non_deployment_event_panics ns name timeout (c : Cluster) w c1 live c2 :
  serveWatch Deployments ns (watchOptionsFor name) c = (inl w, c1) ->
  serveGet Deployments ns name c1 = (inl live, c2) ->
  UnavailableReplicas live <> 0 ->
  let run := waitUntilDeploymentSettled ns name timeout c in
  (forallb carriesDeployment (ResultChan w) = true ->
   exists r, outcome run = Returns r) /\
  (forall pre ev post,
      ResultChan w = pre ++ ev :: post ->
      forallb stillUnavailable pre = true ->
      carriesDeployment ev = false ->
      outcome run = Panics conversionPanic /\
      filter isReceived (effects run) = map Received (pre ++ [ev])).
Proof.
  intros Hw Hg Hz. cbv zeta.
  rewrite (wait_observing _ _ _ _ _ _ _ _ Hw Hg Hz). split.
  - intros Hall. destruct (observing_total (ResultChan w) c2 Hall) as [r Hr].
    destruct (observing (ResultChan w) c2) as [[r' t] c3].
    exists r. exact Hr.
  - intros pre ev post Hchan Hpre Hev. rewrite Hchan.
    rewrite (observing_unavailable_prefix _ _ _ Hpre), observing_cons.
    unfold carriesDeployment in Hev.
    assert (Hrecv : forall l, filter isReceived (map Received l) = map Received l).
    { induction l as [|x l IH]; simpl; [reflexivity|]. now rewrite IH. }
    destruct (Object ev) as [[d| | | | | |]|]; try discriminate;
      (split; [reflexivity|]);
      unfold effects; cbn [fst snd opening app filter isReceived];
      rewrite filter_app, Hrecv, map_app; reflexivity.
Qed.
End WatcherFacts.

Lemma subscription_never_released_witness :
  openSubscriptions
    (effects (waitUntilDeploymentSettled "default" "web" 120 settledCluster)) []
  = [0%nat].
Proof.
  apply (subscription_never_released "default" "web" 120 settledCluster
           (subscription settledCluster) (afterWatch settledCluster)).
  reflexivity.
Defined.

(** The subscription opens, the watcher returns at the first read, and the
    subscription is still open: nothing stopped it. *)
Lemma subscription_released_counterexample :
  let run := waitUntilDeploymentSettled "default" "web" 120 settledCluster in
  serveWatch Deployments "default" (watchOptionsFor "web") settledCluster
    = (inl (subscription settledCluster), afterWatch settledCluster) /\
  outcome run = Returns ("📦 Updated", None) /\
  count isStopped (effects run) = 0%nat /\
  openSubscriptions (effects run) [] <> [].
Proof.
  cbv zeta. repeat split. vm_compute. discriminate.
Qed.

Lemma timeout_returns_failed_label_witness :
  outcome (waitUntilDeploymentSettled "default" "web" 1
             (rollingCluster [deploymentEvent (web 2); deploymentEvent (web 1)]))
  = Returns (stateFailed, Some timedOut).
Proof.
  apply (timeout_returns_failed_label "default" "web" 1
           (rollingCluster [deploymentEvent (web 2); deploymentEvent (web 1)])).
  vm_compute. tauto.
Defined.

(** A run that times out and a run whose first read fails return the same
    label; only the errors differ. *)
Lemma timeout_label_counterexample :
  let timedOutRun :=
    waitUntilDeploymentSettled "default" "web" 1
      (rollingCluster [deploymentEvent (web 2); deploymentEvent (web 1)]) in
  let failedRun := waitUntilDeploymentSettled "default" "web" 1 emptyCluster in
  In TimerFired (effects timedOutRun) /\
  ~ In TimerFired (effects failedRun) /\
  outcome failedRun =
    Returns ("⛔️ Failed",
             Some (Errorf_w "get deployment; " (StatusError 404 "not found"))) /\
  outcome timedOutRun = Returns ("⛔️ Failed", Some timedOut).
Proof.
  cbv zeta. repeat split.
  - vm_compute. tauto.
  - vm_compute. intros H. repeat destruct H as [H|H]; try discriminate. exact H.
Qed.

Lemma settled_at_first_read_witness :
  outcome (waitUntilDeploymentSettled "default" "web" 120
             (clusterWith [(Deployments, "default", "web", web 0)]
                [deploymentEvent (web 0)]))
  = Returns ("📦 Updated", None) /\
  count isReceived
    (effects (waitUntilDeploymentSettled "default" "web" 120
                (clusterWith [(Deployments, "default", "web", web 0)]
                   [deploymentEvent (web 0)]))) = 0%nat.
Proof.
  apply (settled_at_first_read "default" "web" 120
           (clusterWith [(Deployments, "default", "web", web 0)]
              [deploymentEvent (web 0)])
           (subscription (clusterWith [(Deployments, "default", "web", web 0)]
                            [deploymentEvent (web 0)]))
           (afterWatch (clusterWith [(Deployments, "default", "web", web 0)]
                          [deploymentEvent (web 0)]))
           (web 0)
           (afterWatch (clusterWith [(Deployments, "default", "web", web 0)]
                          [deploymentEvent (web 0)])));
    reflexivity.
Defined.

Lemma settled_after_two_events_witness :
  let c := rollingCluster [deploymentEvent (web 1); deploymentEvent (web 0);
                           deploymentEvent (web 3)] in
  outcome (waitUntilDeploymentSettled "default" "web" 120 c)
    = Returns (stateUpdated, None) /\
  count isReceived (effects (waitUntilDeploymentSettled "default" "web" 120 c)) = 2%nat.
Proof.
  cbv zeta.
  pose proof (settled_after_two_events "default" "web" 120
           (rollingCluster [deploymentEvent (web 1); deploymentEvent (web 0);
                            deploymentEvent (web 3)])
           (subscription (rollingCluster [deploymentEvent (web 1); deploymentEvent (web 0);
                            deploymentEvent (web 3)]))
           (afterWatch (rollingCluster [deploymentEvent (web 1); deploymentEvent (web 0);
                            deploymentEvent (web 3)]))
           (web 2)
           (afterWatch (rollingCluster [deploymentEvent (web 1); deploymentEvent (web 0);
                            deploymentEvent (web 3)]))
           (deploymentEvent (web 1)) (deploymentEvent (web 0)) [deploymentEvent (web 3)]
           eq_refl eq_refl) as Hthm.
  destruct Hthm as (Hout & _ & Hcount); try reflexivity.
  - simpl. discriminate.
  - split; assumption.
Defined.

Lemma non_deployment_event_panics_witness :
  (exists r,
      outcome (waitUntilDeploymentSettled "default" "web" 120
                 (rollingCluster [deploymentEvent (web 1)])) = Returns r) /\
  outcome (waitUntilDeploymentSettled "default" "web" 120
             (rollingCluster [deploymentEvent (web 1); zeroEvent])) =
    Panics conversionPanic.
Proof.
  split.
  - destruct (non_deployment_event_panics "default" "web" 120
                (rollingCluster [deploymentEvent (web 1)])
                (subscription (rollingCluster [deploymentEvent (web 1)]))
                (afterWatch (rollingCluster [deploymentEvent (web 1)]))
                (web 2)
                (afterWatch (rollingCluster [deploymentEvent (web 1)])))
      as [Htotal _]; try reflexivity.
    + simpl. discriminate.
    + apply Htotal. reflexivity.
  - destruct (non_deployment_event_panics "default" "web" 120
                (rollingCluster [deploymentEvent (web 1); zeroEvent])
                (subscription (rollingCluster [deploymentEvent (web 1); zeroEvent]))
                (afterWatch (rollingCluster [deploymentEvent (web 1); zeroEvent]))
                (web 2)
                (afterWatch (rollingCluster [deploymentEvent (web 1); zeroEvent])))
      as [_ Hpanic].
    + reflexivity.
    + reflexivity.
    + simpl. discriminate.
    + apply (Hpanic [deploymentEvent (web 1)] zeroEvent []); reflexivity.
Defined.

Section PluginFacts.
Context {Cluster : Type} {client : Clientset Cluster} {host : Host}.

Lemma applyParts_blank p part rest (c : Cluster) :
  String.length (TrimSpace part) = 0%nat ->
  applyParts p (part :: rest) c = applyParts p rest c.
Proof.
  intros Hblank. cbn [applyParts]. rewrite Hblank. reflexivity.
Qed.

Lemma applyParts_document p part rest (c : Cluster) :
  String.length (TrimSpace part) <> 0%nat ->
  applyParts p (part :: rest) c =
    match handleYamlConfig p (TrimSpace part) c with
    | (Returns None, t1, c1) =>
        let '(r, t2, c2) := applyParts p rest c1 in (r, t1 ++ t2, c2)
    | (Returns (Some err), t1, c1) => (Returns (Some err), t1, c1)
    | (Panics reason, t1, c1) => (Panics reason, t1, c1)
    end.
Proof.
  intros Hdoc. cbn [applyParts]. apply Nat.eqb_neq in Hdoc. rewrite Hdoc.
  unfold bind, ret.
  destruct (handleYamlConfig p (TrimSpace part) c) as [[[[err|]|reason] t1] c1];
    try reflexivity.
  rewrite app_nil_r. reflexivity.
Qed.

Lemma applyParts_app p before rest (c : Cluster) :
  applyParts p (before ++ rest) c =
    match applyParts p before c with
    | (Returns None, t1, c1) =>
        let '(r, t2, c2) := applyParts p rest c1 in (r, t1 ++ t2, c2)
    | stopped => stopped
    end.
Proof.
  revert c. induction before as [|part before IH]; intros c.
  - simpl. destruct (applyParts p rest c) as [[r t2] c2]. reflexivity.
  - change ((part :: before) ++ rest) with (part :: (before ++ rest)).
    destruct (Nat.eq_dec (String.length (TrimSpace part)) 0) as [Hblank|Hdoc].
    + rewrite !(applyParts_blank _ _ _ _ Hblank). apply IH.
    + rewrite !(applyParts_document _ _ _ _ Hdoc).
      destruct (handleYamlConfig p (TrimSpace part) c) as [[[[err|]|reason] t1] c1];
        try reflexivity.
      rewrite IH.
      destruct (applyParts p before c1) as [[[[err|]|reason] t1'] c1'];
        try reflexivity.
      destruct (applyParts p rest c1') as [[r t2] c2].
      rewrite app_assoc. reflexivity.
Qed.

Lemma Exec_applies p raw templateYaml (c : Cluster) :
  validConfig p = true ->
  ReadFile (Template p) = inl raw ->
  Render raw = inl templateYaml ->
  CreateKubeClient p = None ->
  Exec p c = applyParts p (Split templateYaml "---") c.
Proof.
  unfold validConfig, Exec. intros Hvalid Hread Hrender Hclient.
  repeat (apply andb_true_iff in Hvalid as [Hvalid ?]).
  repeat match goal with
         | Hn : negb ?b = true |- _ => apply negb_true_iff in Hn; rewrite Hn
         end.
  rewrite Hread, Hrender, Hclient. reflexivity.
Qed.

Lemma applyParts_inOrder p parts (c : Cluster) t c' :
  reconciledInOrder p parts c t c' ->
  applyParts p parts c = (Returns None, t, c').
Proof.
  intros Hrun. induction Hrun as [c|part rest c t c' Hblank _ IH
                                  |part rest c t1 c1 t2 c2 Hdoc Hhandle _ IH].
  - reflexivity.
  - rewrite (applyParts_blank _ _ _ _ Hblank). exact IH.
  - rewrite (applyParts_document _ _ _ _ Hdoc), Hhandle, IH. reflexivity.
Qed.

Lemma inOrder_applyParts p parts (c : Cluster) t c' :
  applyParts p parts c = (Returns None, t, c') ->
  reconciledInOrder p parts c t c'.
Proof.
  revert c t. induction parts as [|part rest IH]; intros c t Hrun.
  - simpl in Hrun. unfold ret in Hrun. inversion Hrun. constructor.
  - destruct (Nat.eq_dec (String.length (TrimSpace part)) 0) as [Hblank|Hdoc].
    + rewrite (applyParts_blank _ _ _ _ Hblank) in Hrun.
      apply inOrder_blank; [exact Hblank|]. exact (IH _ _ Hrun).
    + rewrite (applyParts_document _ _ _ _ Hdoc) in Hrun.
      destruct (handleYamlConfig p (TrimSpace part) c)
        as [[[[err|]|reason] t1] c1] eqn:Hhandle; try discriminate.
      destruct (applyParts p rest c1) as [[r t2] c2] eqn:Hrest.
      inversion Hrun; subst.
      apply inOrder_next with (c1 := c1); [exact Hdoc|exact Hhandle|].
      exact (IH _ _ Hrest).
Qed.

(** C8.  The sub-documents of a manifest are reconciled one after the other
    in document order, each on the cluster the one before it left: the run
    returns no error exactly when every sub-document has been handled so,
    first to last, and its effects are then theirs put end to end.  The
    first error of a document (from decoding, reconciling or settling) ends
    the run with that error: the effects of the run are those of the
    documents before it, in order, followed by those of the failing
    document, and nothing is done for the documents after it. *)
Theorem first_error_aborts_run p raw templateYaml (c : Cluster) :
  validConfig p = true ->
  ReadFile (Template p) = inl raw ->
  Render raw = inl templateYaml ->
  CreateKubeClient p = None ->
  (forall t c',
      Exec p c = (Returns None, t, c') <->
      reconciledInOrder p (Split templateYaml "---") c t c') /\
  (forall before failing after t1 c1 err t2 c2,
      Split templateYaml "---" = before ++ failing :: after ->
      reconciledInOrder p before c t1 c1 ->
      String.length (TrimSpace failing) <> 0%nat ->
      handleYamlConfig p (TrimSpace failing) c1 = (Returns (Some err), t2, c2) ->
      Exec p c = (Returns (Some err), t1 ++ t2, c2)).
Proof.
  intros Hvalid Hread Hrender Hclient.
  rewrite (Exec_applies _ _ _ _ Hvalid Hread Hrender Hclient). split.
  - intros t c'. split; [apply inOrder_applyParts|apply applyParts_inOrder].
  - intros before failing after t1 c1 err t2 c2 Hsplit Hbefore Hdoc Hfail.
    rewrite Hsplit, applyParts_app, (applyParts_inOrder _ _ _ _ _ Hbefore).
    rewrite (applyParts_document _ _ _ _ Hdoc), Hfail. reflexivity.
Qed.

Lemma addressedTo_app ns t1 t2 :
  addressedTo ns t1 -> addressedTo ns t2 -> addressedTo ns (t1 ++ t2).
Proof.
  intros H1 H2 e ns' Hin. apply in_app_or in Hin as [Hin|Hin]; eauto.
Qed.

Lemma observing_addressed ns pending (c : Cluster) :
  addressedTo ns (effects (observing pending c)).
Proof.
  induction pending as [|ev later IH].
  - intros e ns' [<-|[]]; discriminate.
  - rewrite observing_cons.
    destruct (Object ev) as [[d| | | | | |]|];
      try (intros e ns' [<-|[]]; discriminate).
    destruct (UnavailableReplicas d =? 0);
      [intros e ns' [<-|[]]; discriminate|].
    destruct (observing later c) as [[r t] c'].
    unfold effects in *. simpl in *.
    intros e ns' [<-|Hin]; [discriminate|]. exact (IH e ns' Hin).
Qed.

Lemma reconcile_addressed k ns desired (c : Cluster) :
  addressedTo ns (effects (reconcile k ns desired c)).
Proof.
  destruct (reconcile_cases k ns desired c)
    as [(live & c1 & r & c2 & _ & _ & Hrun)
       |[(err & c1 & r & c2 & _ & _ & _ & Hrun)
        |(err & c1 & _ & _ & Hrun)]];
    rewrite Hrun; unfold effects; simpl; intros e ns' Hin Hns;
    repeat destruct Hin as [<-|Hin]; try contradiction;
    simpl in Hns; congruence.
Qed.

Lemma wait_addressed ns name timeout (c : Cluster) :
  addressedTo ns (effects (waitUntilDeploymentSettled ns name timeout c)).
Proof.
  destruct (serveWatch Deployments ns (watchOptionsFor name) c)
    as [[w|err] c1] eqn:Hw.
  - destruct (serveGet Deployments ns name c1) as [[live|err] c2] eqn:Hg.
    + destruct (Z.eq_dec (UnavailableReplicas live) 0) as [Hz|Hz].
      * rewrite (wait_already_settled _ _ _ _ _ _ _ _ Hw Hg Hz).
        unfold effects; simpl; intros e ns' Hin Hns.
        repeat destruct Hin as [<-|Hin]; try contradiction;
          simpl in Hns; congruence.
      * rewrite (wait_observing _ _ _ _ _ _ _ _ Hw Hg Hz).
        pose proof (observing_addressed ns (ResultChan w) c2) as Hobs.
        destruct (observing (ResultChan w) c2) as [[r t] c3].
        unfold effects in *; simpl in *; intros e ns' Hin Hns.
        repeat destruct Hin as [<-|Hin]; try (simpl in Hns; congruence).
        exact (Hobs e ns' Hin Hns).
    + rewrite (wait_get_failed _ _ _ _ _ _ _ _ Hw Hg).
      unfold effects; simpl; intros e ns' Hin Hns.
      repeat destruct Hin as [<-|Hin]; try contradiction;
        simpl in Hns; congruence.
  - rewrite (wait_watch_failed _ _ _ _ _ _ Hw).
    unfold effects; simpl; intros e ns' Hin Hns.
    repeat destruct Hin as [<-|Hin]; try contradiction;
      simpl in Hns; congruence.
Qed.

Lemma defaultNamespace_resolved p o :
  Namespace (Config (defaultNamespace p o)) = resolvedNamespace p o.
Proof.
  unfold defaultNamespace, resolvedNamespace.
  destruct (Namespace (Config p) =? "")%string; reflexivity.
Qed.

Lemma handleYamlConfig_addressed p part o r (c : Cluster) :
  Decode part = inl o ->
  supported o = Some r ->
  addressedTo (resolvedNamespace p r) (effects (handleYamlConfig p part c)).
Proof.
  intros Hdecode Hsup. unfold handleYamlConfig. rewrite Hdecode.
  destruct o; simpl in Hsup; inversion Hsup; subst; cbv zeta;
    rewrite defaultNamespace_resolved.
  - unfold bind.
    pose proof (reconcile_addressed Deployments (resolvedNamespace p r) r c) as Hrec.
    simpl in Hrec.
    destruct (CreateOrUpdateDeployment (resolvedNamespace p r) r c)
      as [[[[err|]|reason] t1] c1]; unfold effects in *; simpl in *.
    + rewrite app_nil_r. exact Hrec.
    + pose proof (wait_addressed (resolvedNamespace p r) (GetName r) 120 c1) as Hwait.
      destruct (waitUntilDeploymentSettled (resolvedNamespace p r) (GetName r) 120 c1)
        as [[[[state watchErr]|reason] t2] c2]; unfold effects in *; simpl in *.
      * rewrite app_nil_r. apply addressedTo_app; assumption.
      * apply addressedTo_app; assumption.
    + exact Hrec.
  - exact (reconcile_addressed ConfigMaps _ r c).
  - exact (reconcile_addressed Services _ r c).
  - exact (reconcile_addressed Ingresses _ r c).
  - exact (reconcile_addressed CronJobs _ r c).
Qed.

(** C9, as amended.  Whatever documents were handled before it, every
    request made for a document of a supported kind is addressed to the
    namespace override when there is one and to the document's own declared
    namespace otherwise: the fallback assignment changes only the copy of
    the plugin struct that [handleYamlConfig] receives. *)
Theorem namespace_resolved_per_document p before part after o r (c : Cluster) t1 c1 :
  applyParts p before c = (Returns None, t1, c1) ->
  String.length (TrimSpace part) <> 0%nat ->
  Decode (TrimSpace part) = inl o ->
  supported o = Some r ->
  exists t3,
    effects (applyParts p (before ++ part :: after) c) =
      t1 ++ effects (handleYamlConfig p (TrimSpace part) c1) ++ t3 /\
    addressedTo (resolvedNamespace p r)
                (effects (handleYamlConfig p (TrimSpace part) c1)).
Proof.
  intros Hbefore Hdoc Hdecode Hsup.
  rewrite applyParts_app, Hbefore, (applyParts_document _ _ _ _ Hdoc).
  pose proof (handleYamlConfig_addressed p _ o r c1 Hdecode Hsup) as Haddr.
  destruct (handleYamlConfig p (TrimSpace part) c1) as [[[[err|]|reason] t2] c2];
    unfold effects in *; simpl in *.
  - exists []. rewrite app_nil_r. split; [reflexivity|assumption].
  - destruct (applyParts p after c2) as [[r3 t3] c3]. simpl.
    exists t3. split; [reflexivity|assumption].
  - exists []. rewrite app_nil_r. split; [reflexivity|assumption].
Qed.
End PluginFacts.

Lemma first_error_aborts_run_witness :
  Exec (host := demoHost "locked") (demoPlugin "") emptyCluster =
    (Returns (Some (StatusError 403 "forbidden")),
     [CallGet ConfigMaps "alpha" "settings";
      CallCreate ConfigMaps "alpha" (mkResource "settings" "alpha" "" "colour: blue" 0)]
       ++ [CallGet Services "locked" "web"],
     withObjects emptyCluster
       [(ConfigMaps, "alpha", "settings",
         mkResource "settings" "alpha" "" "colour: blue" 0)]) /\
  Exec (host := demoHost "beta") (demoPlugin "") emptyCluster =
    (Returns None,
     [CallGet ConfigMaps "alpha" "settings";
      CallCreate ConfigMaps "alpha" (mkResource "settings" "alpha" "" "colour: blue" 0)]
       ++ [CallGet Services "beta" "web";
           CallCreate Services "beta" (mkResource "web" "beta" "" "port: 80" 0)]
       ++ [CallGet CronJobs "gamma" "nightly";
           CallCreate CronJobs "gamma"
             (mkResource "nightly" "gamma" "" "schedule: daily" 0)]
       ++ [],
     withObjects emptyCluster
       [(ConfigMaps, "alpha", "settings",
         mkResource "settings" "alpha" "" "colour: blue" 0);
        (Services, "beta", "web", mkResource "web" "beta" "" "port: 80" 0);
        (CronJobs, "gamma", "nightly",
         mkResource "nightly" "gamma" "" "schedule: daily" 0)]).
Proof.
  split.
  {
  destruct (first_error_aborts_run (host := demoHost "locked") (demoPlugin "")
                demoManifest demoManifest emptyCluster
                eq_refl eq_refl eq_refl eq_refl) as [_ Hfail].
  apply (Hfail ["settings
"] "
web
" ["

"; "
nightly
"]
             ([CallGet ConfigMaps "alpha" "settings";
               CallCreate ConfigMaps "alpha"
                 (mkResource "settings" "alpha" "" "colour: blue" 0)] ++ [])
             (withObjects emptyCluster
                [(ConfigMaps, "alpha", "settings",
                  mkResource "settings" "alpha" "" "colour: blue" 0)])).
    + reflexivity.
    + apply inOrder_next with
        (c1 := withObjects emptyCluster
                 [(ConfigMaps, "alpha", "settings",
                   mkResource "settings" "alpha" "" "colour: blue" 0)]).
      * simpl. discriminate.
      * reflexivity.
      * apply inOrder_done.
    + simpl. discriminate.
    + reflexivity.
  }
  {
  destruct (first_error_aborts_run (host := demoHost "beta") (demoPlugin "")
                demoManifest demoManifest emptyCluster
                eq_refl eq_refl eq_refl eq_refl) as [Hdone _].
  apply (proj2 (Hdone _ _)).
  change (Split demoManifest "---") with ["settings
"; "
web
"; "

"; "
nightly
"].
  apply inOrder_next with
      (c1 := withObjects emptyCluster
               [(ConfigMaps, "alpha", "settings",
                 mkResource "settings" "alpha" "" "colour: blue" 0)]).
  - simpl; discriminate.
  - reflexivity.
  - apply inOrder_next with
      (c1 := withObjects emptyCluster
               [(ConfigMaps, "alpha", "settings",
                 mkResource "settings" "alpha" "" "colour: blue" 0);
                (Services, "beta", "web", mkResource "web" "beta" "" "port: 80" 0)]).
    + simpl; discriminate.
    + reflexivity.
    + apply inOrder_blank; [reflexivity|].
      apply inOrder_next with
      (c1 := withObjects emptyCluster
               [(ConfigMaps, "alpha", "settings",
                 mkResource "settings" "alpha" "" "colour: blue" 0);
                (Services, "beta", "web", mkResource "web" "beta" "" "port: 80" 0);
                (CronJobs, "gamma", "nightly",
                 mkResource "nightly" "gamma" "" "schedule: daily" 0)]).
      * simpl; discriminate.
      * reflexivity.
      * apply inOrder_done.
  }
Defined.

Lemma namespace_resolved_per_document_witness :
  addressedTo "beta"
    (effects (handleYamlConfig (host := demoHost "beta") (demoPlugin "")
                (trimSpace "
web
")
                (withObjects emptyCluster
                   [(ConfigMaps, "alpha", "settings",
                     mkResource "settings" "alpha" "" "colour: blue" 0)]))).
Proof.
  destruct (namespace_resolved_per_document (host := demoHost "beta")
              (demoPlugin "") ["settings
"] "
web
" ["nightly"] (Service (mkResource "web" "beta" "" "port: 80" 0))
              (mkResource "web" "beta" "" "port: 80" 0)
              emptyCluster
              [CallGet ConfigMaps "alpha" "settings";
               CallCreate ConfigMaps "alpha"
                 (mkResource "settings" "alpha" "" "colour: blue" 0)]
              (withObjects emptyCluster
                 [(ConfigMaps, "alpha", "settings",
                   mkResource "settings" "alpha" "" "colour: blue" 0)]))
    as (t3 & _ & Haddressed).
  - reflexivity.
  - simpl. discriminate.
  - reflexivity.
  - reflexivity.
  - exact Haddressed.
Defined.

(** With no override, the first document declares namespace alpha and the
    second beta: the requests for the second document go to beta. *)
Lemma namespace_leak_counterexample :
  let run := Exec (host := demoHost "beta") (demoPlugin "") emptyCluster in
  Namespace (Config (demoPlugin "")) = "" /\
  map requestNamespace (effects run)
  = [Some "alpha"; Some "alpha"; Some "beta"; Some "beta";
     Some "gamma"; Some "gamma"] /\
  In (CallGet Services "beta" "web") (effects run) /\
  ~ In (CallGet Services "alpha" "web") (effects run).
Proof.
  cbv zeta. split; [reflexivity|]. split; [reflexivity|]. split.
  - vm_compute. tauto.
  - vm_compute. intros Hin.
    repeat destruct Hin as [Hin|Hin]; try discriminate. exact Hin.
Qed.

(** * Further properties *)

Section ExecFacts.
Context {Cluster : Type} {client : Clientset Cluster} {host : Host}.

(** X1.  A missing server, token, certificate or template path ends [Exec]
    at once with the error naming the first missing setting, checked in
    that order; nothing is read and no request is made. *)
Theorem Exec_rejects_missing_setting p (c : Cluster) :
  (Server (Config p) = "" ->
   Exec p c = (Returns (Some (errorString "PLUGIN_SERVER is not defined")), [], c)) /\
  (Server (Config p) <> "" -> Token (Config p) = "" ->
   Exec p c = (Returns (Some (errorString "PLUGIN_TOKEN is not defined")), [], c)) /\
  (Server (Config p) <> "" -> Token (Config p) <> "" -> Ca (Config p) = "" ->
   Exec p c = (Returns (Some (errorString "PLUGIN_CA is not defined")), [], c)) /\
  (Server (Config p) <> "" -> Token (Config p) <> "" -> Ca (Config p) <> "" ->
   Template p = "" ->
   Exec p c =
     (Returns (Some (errorString "PLUGIN_TEMPLATE, or template must be defined")),
      [], c)).
Proof.
  unfold Exec. repeat split; intros;
    repeat match goal with
           | Heq : ?s = "" |- _ => rewrite Heq
           | Hne : ?s <> "" |- _ => apply String.eqb_neq in Hne; rewrite Hne
           end; reflexivity.
Qed.

(** X2.  With the settings present, a failure to read the template, to
    render it or to create the client ends [Exec] with that very error
    before any request is made. *)
Theorem Exec_setup_failure_makes_no_request p (c : Cluster) :
  validConfig p = true ->
  (forall err, ReadFile (Template p) = inr err ->
               Exec p c = (Returns (Some err), [], c)) /\
  (forall raw err, ReadFile (Template p) = inl raw -> Render raw = inr err ->
                   Exec p c = (Returns (Some err), [], c)) /\
  (forall raw templateYaml err,
      ReadFile (Template p) = inl raw -> Render raw = inl templateYaml ->
      CreateKubeClient p = Some err ->
      Exec p c = (Returns (Some err), [], c)).
Proof.
  unfold validConfig, Exec. intros Hvalid.
  repeat (apply andb_true_iff in Hvalid as [Hvalid ?]).
  repeat match goal with
         | Hn : negb ?b = true |- _ => apply negb_true_iff in Hn; rewrite Hn
         end.
  repeat split; intros;
    repeat match goal with
           | Heq : _ = inr _ |- _ => rewrite Heq
           | Heq : _ = inl _ |- _ => rewrite Heq
           | Heq : _ = Some _ |- _ => rewrite Heq
           end; reflexivity.
Qed.

(** X3.  A sub-document that does not decode, or that decodes to a type
    other than the five handled ones, makes no request at all: the decode
    error is returned unchanged, and the other case returns the
    unsupported-type error. *)
Theorem undecodable_or_unsupported_makes_no_request p part (c : Cluster) :
  (forall err, Decode part = inr err ->
               handleYamlConfig p part c = (Returns (Some err), [], c)) /\
  (forall o, Decode part = inl o -> dispatched o = None ->
             handleYamlConfig p part c = (Returns (Some unsupportedType), [], c)).
Proof.
  unfold handleYamlConfig. split.
  - intros err Hdecode. rewrite Hdecode. reflexivity.
  - intros o Hdecode Hnone. rewrite Hdecode.
    destruct o; simpl in Hnone; try discriminate; reflexivity.
Qed.

Lemma applyParts_filter p parts (c : Cluster) :
  applyParts p parts c = applyParts p (filter nonBlank parts) c.
Proof.
  revert c. induction parts as [|part rest IH]; intros c; [reflexivity|].
  cbn [filter]. unfold nonBlank at 1.
  destruct (Nat.eq_dec (String.length (TrimSpace part)) 0) as [Hblank|Hdoc].
  - rewrite (applyParts_blank _ _ _ _ Hblank), Hblank. simpl. apply IH.
  - rewrite (applyParts_document _ _ _ _ Hdoc).
    pose proof Hdoc as Hdoc'. apply Nat.eqb_neq in Hdoc'. rewrite Hdoc'. cbn [negb].
    rewrite (applyParts_document _ _ _ _ Hdoc).
    destruct (handleYamlConfig p (TrimSpace part) c) as [[[[err|]|reason] t1] c1];
      try reflexivity.
    rewrite IH. reflexivity.
Qed.

(** X4.  Sub-documents that are empty once trimmed are skipped: the run is
    the run over the remaining sub-documents, and a manifest with nothing
    else succeeds without a single request. *)
Theorem blank_documents_are_skipped p raw templateYaml (c : Cluster) :
  validConfig p = true ->
  ReadFile (Template p) = inl raw ->
  Render raw = inl templateYaml ->
  CreateKubeClient p = None ->
  Exec p c = applyParts p (filter nonBlank (Split templateYaml "---")) c /\
  (filter nonBlank (Split templateYaml "---") = [] ->
   Exec p c = (Returns None, [], c)).
Proof.
  intros Hvalid Hread Hrender Hclient.
  rewrite (Exec_applies _ _ _ _ Hvalid Hread Hrender Hclient), applyParts_filter.
  split; [reflexivity|]. intros Hnone. rewrite Hnone. reflexivity.
Qed.

Lemma reconcile_never_watches k ns desired (c : Cluster) :
  count isWatch (effects (reconcile k ns desired c)) = 0%nat /\
  count isTimerStarted (effects (reconcile k ns desired c)) = 0%nat /\
  count isReceived (effects (reconcile k ns desired c)) = 0%nat.
Proof.
  destruct (reconcile_cases k ns desired c)
    as [(live & c1 & r & c2 & _ & _ & Hrun)
       |[(err & c1 & r & c2 & _ & _ & _ & Hrun)
        |(err & c1 & _ & _ & Hrun)]];
    rewrite Hrun; repeat split.
Qed.

(** X5.  A ConfigMap, Service, Ingress or CronJob document is handled by
    its reconcile operation alone, in the resolved namespace: no
    subscription is opened, no timer started, no event awaited. *)
Theorem only_deployments_are_watched p part o k r (c : Cluster) :
  Decode part = inl o ->
  dispatched o = Some (k, r) ->
  k <> Deployments ->
  handleYamlConfig p part c = reconcile k (resolvedNamespace p r) r c /\
  count isWatch (effects (handleYamlConfig p part c)) = 0%nat /\
  count isTimerStarted (effects (handleYamlConfig p part c)) = 0%nat /\
  count isReceived (effects (handleYamlConfig p part c)) = 0%nat.
Proof.
  intros Hdecode Hdisp Hkind.
  assert (Hrun : handleYamlConfig p part c = reconcile k (resolvedNamespace p r) r c).
  { unfold handleYamlConfig. rewrite Hdecode.
    destruct o; simpl in Hdisp; inversion Hdisp; subst; try congruence;
      cbv zeta; rewrite defaultNamespace_resolved; reflexivity. }
  rewrite Hrun. split; [reflexivity|]. apply reconcile_never_watches.
Qed.

(** X6.  For a Deployment document the wait for the rollout follows a
    successful create-or-update only: when the create-or-update fails its
    error is returned and no subscription is opened; when it succeeds the
    watcher runs next, in the resolved namespace, on the document's name,
    with a deadline of 120 seconds, and its error is what is returned. *)
Theorem deployment_waits_after_successful_apply p part r (c : Cluster) t1 c1 :
  Decode part = inl (Deployment r) ->
  (forall err,
      CreateOrUpdateDeployment (resolvedNamespace p r) r c
        = (Returns (Some err), t1, c1) ->
      handleYamlConfig p part c = (Returns (Some err), t1, c1) /\
      count isWatch (effects (handleYamlConfig p part c)) = 0%nat) /\
  (CreateOrUpdateDeployment (resolvedNamespace p r) r c = (Returns None, t1, c1) ->
   let wait :=
     waitUntilDeploymentSettled (resolvedNamespace p r) (GetName r) 120 c1 in
   effects (handleYamlConfig p part c) = t1 ++ effects wait /\
   cluster (handleYamlConfig p part c) = cluster wait /\
   forall state watchErr,
     outcome wait = Returns (state, watchErr) ->
     outcome (handleYamlConfig p part c) = Returns watchErr).
Proof.
  intros Hdecode. unfold handleYamlConfig. rewrite Hdecode. cbv zeta.
  rewrite defaultNamespace_resolved. unfold bind. split.
  - intros err Happly. rewrite Happly. unfold ret. rewrite app_nil_r.
    split; [reflexivity|].
    pose proof (reconcile_never_watches Deployments (resolvedNamespace p r) r c)
      as [Hw _].
    simpl in Hw. rewrite Happly in Hw. exact Hw.
  - intros Happly. rewrite Happly.
    destruct (waitUntilDeploymentSettled (resolvedNamespace p r) (GetName r) 120 c1)
      as [[[[state watchErr]|reason] t2] c2]; unfold effects, cluster, outcome, ret;
      simpl.
    + rewrite app_nil_r. repeat split. intros s e Heq. inversion Heq. reflexivity.
    + repeat split. intros s e Heq. discriminate.
Qed.
End ExecFacts.

Lemma Exec_rejects_missing_setting_witness :
  Exec (host := demoHost "beta")
       {| Template := "";
          Config := {| Ca := "ca"; Server := "https://kube"; Token := "";
                       Namespace := ""; InsecureSkipTLSVerify := false |} |}
       emptyCluster
  = (Returns (Some (errorString "PLUGIN_TOKEN is not defined")), [], emptyCluster).
Proof.
  apply (proj1 (proj2 (Exec_rejects_missing_setting (host := demoHost "beta")
           {| Template := "";
              Config := {| Ca := "ca"; Server := "https://kube"; Token := "";
                           Namespace := ""; InsecureSkipTLSVerify := false |} |}
           emptyCluster))).
  - simpl. discriminate.
  - reflexivity.
Defined.

Lemma Exec_setup_failure_makes_no_request_witness :
  Exec (host := tableHost [] []) (demoPlugin "") emptyCluster
  = (Returns (Some (foreignError "open: no such file or directory")), [],
     emptyCluster).
Proof.
  apply (proj1 (Exec_setup_failure_makes_no_request (host := tableHost [] [])
                  (demoPlugin "") emptyCluster eq_refl)).
  reflexivity.
Defined.

Lemma undecodable_or_unsupported_makes_no_request_witness :
  handleYamlConfig (host := tableHost [] [("pod", OtherObject "v1.Pod")])
    (demoPlugin "") "pod" emptyCluster
  = (Returns (Some unsupportedType), [], emptyCluster) /\
  handleYamlConfig (host := tableHost [] [("pod", OtherObject "v1.Pod")])
    (demoPlugin "") "not yaml" emptyCluster
  = (Returns (Some (foreignError "couldn't get version/kind; json parse error")),
     [], emptyCluster).
Proof.
  split.
  - apply (proj2 (undecodable_or_unsupported_makes_no_request
                    (host := tableHost [] [("pod", OtherObject "v1.Pod")])
                    (demoPlugin "") "pod" emptyCluster) (OtherObject "v1.Pod"));
      reflexivity.
  - apply (proj1 (undecodable_or_unsupported_makes_no_request
                    (host := tableHost [] [("pod", OtherObject "v1.Pod")])
                    (demoPlugin "") "not yaml" emptyCluster)).
    reflexivity.
Defined.

Lemma blank_documents_are_skipped_witness :
  Exec (host := tableHost [("deploy.yaml", blankManifest)] [])
       (demoPlugin "") emptyCluster
  = (Returns None, [], emptyCluster).
Proof.
  apply (proj2 (blank_documents_are_skipped
                  (host := tableHost [("deploy.yaml", blankManifest)] [])
                  (demoPlugin "") blankManifest blankManifest emptyCluster
                  eq_refl eq_refl eq_refl eq_refl)).
  reflexivity.
Defined.

Lemma only_deployments_are_watched_witness :
  count isWatch
    (effects (handleYamlConfig (host := demoHost "beta") (demoPlugin "") "web"
                emptyCluster)) = 0%nat.
Proof.
  apply (only_deployments_are_watched (host := demoHost "beta") (demoPlugin "")
           "web" (Service (mkResource "web" "beta" "" "port: 80" 0)) Services
           (mkResource "web" "beta" "" "port: 80" 0) emptyCluster).
  - reflexivity.
  - reflexivity.
  - discriminate.
Defined.

Lemma deployment_waits_after_successful_apply_witness :
  effects (handleYamlConfig (host := deploymentHost) (demoPlugin "default") "web"
             emptyCluster)
  = [CallGet Deployments "default" "web"; CallCreate Deployments "default" (web 2)]
      ++ effects (waitUntilDeploymentSettled "default" "web" 120
                    (withObjects emptyCluster
                       [(Deployments, "default", "web", web 2)])).
Proof.
  apply (proj2 (deployment_waits_after_successful_apply (host := deploymentHost)
                  (demoPlugin "default") "web" (web 2) emptyCluster
                  [CallGet Deployments "default" "web";
                   CallCreate Deployments "default" (web 2)]
                  (withObjects emptyCluster
                     [(Deployments, "default", "web", web 2)])
                  eq_refl)).
  reflexivity.
Defined.

Section ClientFacts.
Context {Cluster : Type} {client : Clientset Cluster}.


(** X8.  A reconcile operation does not retry and has no fallback: when its
    create call fails, or its update call fails, that error is returned
    unchanged after exactly the lookup and the one write. *)
Theorem failed_write_is_returned k ns desired (c : Cluster) :
  (forall notFound c1 err c2,
      serveGet k ns (GetName desired) c = (inr notFound, c1) ->
      asStatusError notFound = Some StatusNotFound ->
      serveCreate k ns desired c1 = (inr err, c2) ->
      reconcile k ns desired c =
        (Returns (Some err),
         [CallGet k ns (GetName desired); CallCreate k ns desired], c2)) /\
  (forall live c1 err c2,
      serveGet k ns (GetName desired) c = (inl live, c1) ->
      serveUpdate k ns (match k with Services => live | _ => desired end) c1
        = (inr err, c2) ->
      reconcile k ns desired c =
        (Returns (Some err),
         [CallGet k ns (GetName desired);
          CallUpdate k ns (match k with Services => live | _ => desired end)],
         c2)).
Proof.
  split.
  - intros notFound c1 err c2 Hget Hcode Hcreate.
    destruct (reconcile_cases k ns desired c)
      as [(live & c1' & r & c2' & Hget' & _)
         |[(e & c1' & r & c2' & Hget' & _ & Hcreate' & Hrun)
          |(e & c1' & Hget' & Hcode' & _)]];
      rewrite Hget in Hget'; inversion Hget'; subst; try congruence.
    rewrite Hcreate in Hcreate'. inversion Hcreate'; subst. exact Hrun.
  - intros live c1 err c2 Hget Hupdate.
    destruct (reconcile_cases k ns desired c)
      as [(live' & c1' & r & c2' & Hget' & Hupdate' & Hrun)
         |[(e & c1' & r & c2' & Hget' & _)
          |(e & c1' & Hget' & _)]];
      rewrite Hget in Hget'; inversion Hget'; subst.
    rewrite Hupdate in Hupdate'. inversion Hupdate'; subst. exact Hrun.
Qed.

(** X9.  On a Service that already exists the caller's document has no
    influence beyond its name: two desired documents of the same name give
    the same requests, the same result and the same cluster, because the
    update carries the fetched document. *)
Theorem existing_service_ignores_desired_document ns first second (c : Cluster)
    live c1 :
  serveGet Services ns (GetName first) c = (inl live, c1) ->
  GetName first = GetName second ->
  ApplyService ns first c = ApplyService ns second c.
Proof.
  intros Hget Hname.
  unfold ApplyService, getService, bind, Get, ret. rewrite <- Hname, Hget.
  reflexivity.
Qed.

(** X10.  When the subscription cannot be opened the watcher returns the
    failed label and an error that wraps the cause under the text
    "watch deployment; "; it makes no point-read and holds no
    subscription. *)
Theorem watch_failure_is_wrapped ns name timeout (c : Cluster) cause c1 :
  serveWatch Deployments ns (watchOptionsFor name) c = (inr cause, c1) ->
  let run := waitUntilDeploymentSettled ns name timeout c in
  exists err,
    outcome run = Returns (stateFailed, Some err) /\
    Unwrap err = Some cause /\
    Error err = String.append "watch deployment; " (Error cause) /\
    count isGet (effects run) = 0%nat /\
    openSubscriptions (effects run) [] = [].
Proof.
  intros Hw. cbv zeta. rewrite (wait_watch_failed _ _ _ _ _ _ Hw).
  eexists. repeat split.
Qed.

(** X11.  When the point-read fails the watcher returns the failed label
    and an error that wraps the cause under the text "get deployment; ",
    without starting the timer or receiving an event; a not-found answer
    is a failure here like any other. *)
Theorem first_read_failure_is_wrapped ns name timeout (c : Cluster) w c1 cause c2 :
  serveWatch Deployments ns (watchOptionsFor name) c = (inl w, c1) ->
  serveGet Deployments ns name c1 = (inr cause, c2) ->
  let run := waitUntilDeploymentSettled ns name timeout c in
  exists err,
    outcome run = Returns (stateFailed, Some err) /\
    Unwrap err = Some cause /\
    Error err = String.append "get deployment; " (Error cause) /\
    count isTimerStarted (effects run) = 0%nat /\
    count isReceived (effects run) = 0%nat.
Proof.
  intros Hw Hg. cbv zeta. rewrite (wait_get_failed _ _ _ _ _ _ _ _ Hw Hg).
  eexists. repeat split.
Qed.

Lemma received_map evs : filter isReceived (map Received evs) = map Received evs.
Proof. induction evs as [|ev evs IH]; simpl; [reflexivity|]. now rewrite IH. Qed.

(** X12.  However many events with unavailable replicas come first, the
    watcher settles at the first event without any: it returns
    [stateUpdated] and a nil error, has received the events up to and
    including that one and none after it, and the timer has not fired. *)
Theorem settles_at_first_available_event ns name timeout (c : Cluster)
    w c1 live c2 pre ev post :
  serveWatch Deployments ns (watchOptionsFor name) c = (inl w, c1) ->
  serveGet Deployments ns name c1 = (inl live, c2) ->
  UnavailableReplicas live <> 0 ->
  ResultChan w = pre ++ ev :: post ->
  forallb stillUnavailable pre = true ->
  allAvailable ev = true ->
  let run := waitUntilDeploymentSettled ns name timeout c in
  outcome run = Returns (stateUpdated, None) /\
  filter isReceived (effects run) = map Received (pre ++ [ev]) /\
  ~ In TimerFired (effects run).
Proof.
  intros Hw Hg Hz Hchan Hpre Hev. cbv zeta.
  rewrite (wait_observing _ _ _ _ _ _ _ _ Hw Hg Hz), Hchan.
  rewrite (observing_unavailable_prefix _ _ _ Hpre), observing_cons.
  unfold allAvailable in Hev.
  destruct (Object ev) as [[d| | | | | |]|]; try discriminate. rewrite Hev.
  unfold outcome, effects. cbn [fst snd]. repeat split.
  - unfold opening. cbn [app filter isReceived].
    rewrite filter_app, received_map, map_app. reflexivity.
  - unfold opening. cbn [app]. intros Hin.
    repeat (destruct Hin as [Hin|Hin]; [discriminate|]).
    apply in_app_or in Hin as [Hin|Hin].
    + apply in_map_iff in Hin as (x & Hx & _). discriminate.
    + destruct Hin as [Hin|[]]. discriminate.
Qed.

Lemma observing_all_unavailable pending (c : Cluster) :
  forallb stillUnavailable pending = true ->
  observing pending c =
    (Returns (stateFailed, Some timedOut), map Received pending ++ [TimerFired], c).
Proof.
  intros Hall.
  pose proof (observing_unavailable_prefix pending [] c Hall) as Hrun.
  rewrite app_nil_r, observing_nil in Hrun. exact Hrun.
Qed.

(** X13.  When every event the subscription delivers before the deadline
    still has unavailable replicas, the watcher receives all of them, then
    the timer fires and it returns the failed label with the timeout
    error. *)
Theorem times_out_without_available_event ns name timeout (c : Cluster)
    w c1 live c2 :
  serveWatch Deployments ns (watchOptionsFor name) c = (inl w, c1) ->
  serveGet Deployments ns name c1 = (inl live, c2) ->
  UnavailableReplicas live <> 0 ->
  forallb stillUnavailable (ResultChan w) = true ->
  let run := waitUntilDeploymentSettled ns name timeout c in
  outcome run = Returns (stateFailed, Some timedOut) /\
  filter isReceived (effects run) = map Received (ResultChan w) /\
  last (effects run) TimerFired = TimerFired /\
  In TimerFired (effects run).
Proof.
  intros Hw Hg Hz Hall. cbv zeta.
  rewrite (wait_observing _ _ _ _ _ _ _ _ Hw Hg Hz).
  rewrite (observing_all_unavailable _ _ Hall).
  unfold outcome, effects, opening. cbn [fst snd app]. repeat split.
  - cbn [filter isReceived]. rewrite filter_app, received_map. simpl.
    rewrite app_nil_r. reflexivity.
  - change (CallWatch Deployments ns (watchOptionsFor name)
              :: Subscribed w :: CallGet Deployments ns name
              :: TimerStarted (wrap64 (timeout * Second))
              :: map Received (ResultChan w) ++ [TimerFired])
      with (([CallWatch Deployments ns (watchOptionsFor name);
              Subscribed w; CallGet Deployments ns name;
              TimerStarted (wrap64 (timeout * Second))]
              ++ map Received (ResultChan w)) ++ [TimerFired]).
    apply last_last.
  - do 4 right. apply in_or_app. right. left. reflexivity.
Qed.

Lemma observing_label pending (c : Cluster) label err :
  outcome (observing pending c) = Returns (label, err) ->
  (label = stateUpdated /\ err = None) \/ (label = stateFailed /\ err = Some timedOut).
Proof.
  induction pending as [|ev later IH].
  - rewrite observing_nil. unfold outcome. simpl. intros Heq. inversion Heq. now right.
  - rewrite observing_cons.
    destruct (Object ev) as [[d| | | | | |]|]; try (unfold outcome; simpl; discriminate).
    destruct (UnavailableReplicas d =? 0).
    + unfold outcome. simpl. intros Heq. inversion Heq. now left.
    + destruct (observing later c) as [[r t] c']. unfold outcome in *. simpl in *.
      exact IH.
Qed.

(** X14.  Whenever the watcher returns, its label and its error agree: the
    updated label comes with a nil error and the failed label with an
    error, never the other way round. *)
Theorem label_agrees_with_error ns name timeout (c : Cluster) label err :
  outcome (waitUntilDeploymentSettled ns name timeout c) = Returns (label, err) ->
  (label = stateUpdated /\ err = None) \/ (label = stateFailed /\ err <> None).
Proof.
  destruct (serveWatch Deployments ns (watchOptionsFor name) c)
    as [[w|cause] c1] eqn:Hw.
  - destruct (serveGet Deployments ns name c1) as [[live|cause] c2] eqn:Hg.
    + destruct (Z.eq_dec (UnavailableReplicas live) 0) as [Hz|Hz].
      * rewrite (wait_already_settled _ _ _ _ _ _ _ _ Hw Hg Hz).
        unfold outcome. simpl. intros Heq. inversion Heq. now left.
      * rewrite (wait_observing _ _ _ _ _ _ _ _ Hw Hg Hz).
        pose proof (observing_label (ResultChan w) c2 label err) as Hobs.
        destruct (observing (ResultChan w) c2) as [[r t] c3].
        unfold outcome in *. simpl in *. intros Heq.
        destruct (Hobs Heq) as [[-> ->]|[-> ->]]; [now left|right].
        split; [reflexivity|discriminate].
    + rewrite (wait_get_failed _ _ _ _ _ _ _ _ Hw Hg).
      unfold outcome. simpl. intros Heq. inversion Heq. right.
      split; [reflexivity|discriminate].
  - rewrite (wait_watch_failed _ _ _ _ _ _ Hw).
    unfold outcome. simpl. intros Heq. inversion Heq. right.
    split; [reflexivity|discriminate].
Qed.

Lemma observing_makes_no_request pending (c : Cluster) f :
  (forall ev, f (Received ev) = false) -> f TimerFired = false ->
  count f (effects (observing pending c)) = 0%nat.
Proof.
  intros Hrecv Htimer. induction pending as [|ev later IH].
  - rewrite observing_nil. unfold effects, count. simpl. now rewrite Htimer.
  - rewrite observing_cons.
    destruct (Object ev) as [[d| | | | | |]|];
      try (unfold effects, count; simpl; now rewrite Hrecv).
    destruct (UnavailableReplicas d =? 0);
      [unfold effects, count; simpl; now rewrite Hrecv|].
    destruct (observing later c) as [[r t] c'].
    unfold effects, count in *. simpl in *. rewrite Hrecv. exact IH.
Qed.

(** X15.  The watcher only reads and does not poll: however many events
    arrive, it issues one Watch request, at most one Get, no Create and no
    Update. *)
Theorem watcher_reads_once ns name timeout (c : Cluster) :
  let run := waitUntilDeploymentSettled ns name timeout c in
  count isWatch (effects run) = 1%nat /\
  (count isGet (effects run) <= 1)%nat /\
  count isCreate (effects run) = 0%nat /\
  count isUpdate (effects run) = 0%nat.
Proof.
  cbv zeta.
  destruct (serveWatch Deployments ns (watchOptionsFor name) c)
    as [[w|cause] c1] eqn:Hw.
  - destruct (serveGet Deployments ns name c1) as [[live|cause] c2] eqn:Hg.
    + destruct (Z.eq_dec (UnavailableReplicas live) 0) as [Hz|Hz].
      * rewrite (wait_already_settled _ _ _ _ _ _ _ _ Hw Hg Hz).
        unfold effects, count. simpl. repeat split; lia.
      * rewrite (wait_observing _ _ _ _ _ _ _ _ Hw Hg Hz).
        pose proof (observing_makes_no_request (ResultChan w) c2 isWatch
                      (fun _ => eq_refl) eq_refl) as Hwatch.
        pose proof (observing_makes_no_request (ResultChan w) c2 isGet
                      (fun _ => eq_refl) eq_refl) as Hget.
        pose proof (observing_makes_no_request (ResultChan w) c2 isCreate
                      (fun _ => eq_refl) eq_refl) as Hcreate.
        pose proof (observing_makes_no_request (ResultChan w) c2 isUpdate
                      (fun _ => eq_refl) eq_refl) as Hupdate.
        destruct (observing (ResultChan w) c2) as [[r t] c3].
        unfold effects, count in *. simpl in *.
        rewrite Hwatch, Hget, Hcreate, Hupdate. repeat split; lia.
    + rewrite (wait_get_failed _ _ _ _ _ _ _ _ Hw Hg).
      unfold effects, count. simpl. repeat split; lia.
  - rewrite (wait_watch_failed _ _ _ _ _ _ Hw).
    unfold effects, count. simpl. repeat split; lia.
Qed.

(** X16.  For a timeout of 0 to 9223372036 seconds the timer is started
    with that many seconds in nanoseconds; for a larger timeout the int64
    product wraps and the timer gets another duration. *)
Theorem timer_duration_within_int64 ns name timeout (c : Cluster) w c1 live c2 :
  serveWatch Deployments ns (watchOptionsFor name) c = (inl w, c1) ->
  serveGet Deployments ns name c1 = (inl live, c2) ->
  UnavailableReplicas live <> 0 ->
  0 <= timeout ->
  let started :=
    filter isTimerStarted (effects (waitUntilDeploymentSettled ns name timeout c)) in
  (timeout <= 9223372036 -> started = [TimerStarted (timeout * 1000000000)]) /\
  (9223372036 < timeout -> started <> [TimerStarted (timeout * 1000000000)]).
Proof.
  intros Hw Hg Hz Hpos. cbv zeta.
  rewrite (wait_observing _ _ _ _ _ _ _ _ Hw Hg Hz).
  pose proof (observing_makes_no_request (ResultChan w) c2 isTimerStarted
                (fun _ => eq_refl) eq_refl) as Hnone.
  destruct (observing (ResultChan w) c2) as [[r t] c3].
  unfold effects, count in *. cbn [fst snd opening app filter isTimerStarted] in *.
  apply length_zero_iff_nil in Hnone. rewrite Hnone.
  unfold wrap64, Second. split.
  - intros Hrange. f_equal. f_equal. rewrite Z.mod_small; lia.
  - intros Hbig Heq. inversion Heq as [Hwrap].
    pose proof (Z.mod_pos_bound (timeout * 1000000000 + 2 ^ 63) (2 ^ 64)
                  ltac:(lia)) as Hbound.
    lia.
Qed.
End ClientFacts.


Lemma failed_write_is_returned_witness :
  reconcile ConfigMaps "default" (web 0) {| served := emptyCluster |}
  = (Returns (Some (StatusError 405 "method not allowed")),
     [CallGet ConfigMaps "default" "web"; CallCreate ConfigMaps "default" (web 0)],
     {| served := emptyCluster |}).
Proof.
  apply (proj1 (failed_write_is_returned ConfigMaps "default" (web 0)
                  {| served := emptyCluster |})
           (StatusError 404 "not found") {| served := emptyCluster |}
           (StatusError 405 "method not allowed") {| served := emptyCluster |});
    reflexivity.
Defined.

Lemma existing_service_ignores_desired_document_witness :
  ApplyService "default" (mkResource "web" "prod" "" "port: 80" 0)
    (clusterWith [(Services, "default", "web", web 0)] [])
  = ApplyService "default" (mkResource "web" "prod" "" "port: 8080" 0)
      (clusterWith [(Services, "default", "web", web 0)] []).
Proof.
  apply (existing_service_ignores_desired_document "default"
           (mkResource "web" "prod" "" "port: 80" 0)
           (mkResource "web" "prod" "" "port: 8080" 0)
           (clusterWith [(Services, "default", "web", web 0)] [])
           (web 0)
           (clusterWith [(Services, "default", "web", web 0)] []));
    reflexivity.
Defined.

Lemma watch_failure_is_wrapped_witness :
  exists err,
    outcome (waitUntilDeploymentSettled "locked" "web" 120 emptyCluster)
      = Returns (stateFailed, Some err) /\
    Unwrap err = Some (StatusError 403 "forbidden") /\
    Error err = "watch deployment; forbidden".
Proof.
  destruct (watch_failure_is_wrapped "locked" "web" 120 emptyCluster
              (StatusError 403 "forbidden") emptyCluster)
    as (err & Hout & Hcause & Htext & _).
  - reflexivity.
  - exists err. repeat split; assumption.
Defined.

Lemma first_read_failure_is_wrapped_witness :
  exists err,
    outcome (waitUntilDeploymentSettled "default" "web" 120 emptyCluster)
      = Returns (stateFailed, Some err) /\
    Unwrap err = Some (StatusError 404 "not found") /\
    Error err = "get deployment; not found".
Proof.
  destruct (first_read_failure_is_wrapped "default" "web" 120 emptyCluster
              (subscription emptyCluster) (afterWatch emptyCluster)
              (StatusError 404 "not found") (afterWatch emptyCluster))
    as (err & Hout & Hcause & Htext & _).
  - reflexivity.
  - reflexivity.
  - exists err. repeat split; assumption.
Defined.

Lemma settles_at_first_available_event_witness :
  outcome (waitUntilDeploymentSettled "default" "web" 120
             (rollingCluster threeThenDone))
  = Returns (stateUpdated, None) /\
  filter isReceived
    (effects (waitUntilDeploymentSettled "default" "web" 120
                (rollingCluster threeThenDone)))
  = map Received [deploymentEvent (web 3); deploymentEvent (web 2);
                  deploymentEvent (web 1); deploymentEvent (web 0)].
Proof.
  destruct (settles_at_first_available_event "default" "web" 120
              (rollingCluster threeThenDone)
              (subscription (rollingCluster threeThenDone))
              (afterWatch (rollingCluster threeThenDone))
              (web 2)
              (afterWatch (rollingCluster threeThenDone))
              [deploymentEvent (web 3); deploymentEvent (web 2);
               deploymentEvent (web 1)]
              (deploymentEvent (web 0)) [zeroEvent])
    as (Hout & Hrecv & _); try reflexivity.
  - simpl. discriminate.
  - split; assumption.
Defined.

Lemma times_out_without_available_event_witness :
  outcome (waitUntilDeploymentSettled "default" "web" 1
             (rollingCluster [deploymentEvent (web 2); deploymentEvent (web 1)]))
  = Returns (stateFailed, Some timedOut) /\
  filter isReceived
    (effects (waitUntilDeploymentSettled "default" "web" 1
                (rollingCluster [deploymentEvent (web 2); deploymentEvent (web 1)])))
  = [Received (deploymentEvent (web 2)); Received (deploymentEvent (web 1))].
Proof.
  destruct (times_out_without_available_event "default" "web" 1
              (rollingCluster [deploymentEvent (web 2); deploymentEvent (web 1)])
              (subscription
                 (rollingCluster [deploymentEvent (web 2); deploymentEvent (web 1)]))
              (afterWatch
                 (rollingCluster [deploymentEvent (web 2); deploymentEvent (web 1)]))
              (web 2)
              (afterWatch
                 (rollingCluster [deploymentEvent (web 2); deploymentEvent (web 1)])))
    as (Hout & Hrecv & _); try reflexivity.
  - simpl. discriminate.
  - split; assumption.
Defined.

Lemma label_agrees_with_error_witness :
  (stateFailed = stateUpdated /\ Some timedOut = None) \/
  (stateFailed = stateFailed /\ Some timedOut <> None).
Proof.
  apply (label_agrees_with_error "default" "web" 1 (rollingCluster [])).
  reflexivity.
Defined.

Lemma timer_duration_within_int64_witness :
  filter isTimerStarted
    (effects (waitUntilDeploymentSettled "default" "web" 120 (rollingCluster [])))
  = [TimerStarted 120000000000].
Proof.
  destruct (timer_duration_within_int64 "default" "web" 120 (rollingCluster [])
              (subscription (rollingCluster []))
              (afterWatch (rollingCluster []))
              (web 2)
              (afterWatch (rollingCluster []))) as [Hsmall _].
  - reflexivity.
  - reflexivity.
  - simpl. discriminate.
  - lia.
  - apply Hsmall. lia.
Defined.

(** ** The harvest of substitution variables *)

Lemma stripPrefix_append prefix s :
  stripPrefix prefix (String.append prefix s) = Some s.
Proof.
  induction prefix as [|ch prefix IH]; simpl; [destruct s; reflexivity|].
  rewrite Ascii.eqb_refl. exact IH.
Qed.

Lemma stripPrefix_none prefix s :
  String.prefix prefix s = false -> stripPrefix prefix s = None.
Proof.
  revert s. induction prefix as [|a prefix IH]; intros s Hprefix.
  - destruct s; discriminate.
  - destruct s as [|b s]; [reflexivity|]. simpl in *.
    destruct (ascii_dec a b) as [->|Hne].
    + rewrite Ascii.eqb_refl. exact (IH s Hprefix).
    + apply Ascii.eqb_neq in Hne. now rewrite Hne.
Qed.

Lemma firstLine_append line tail :
  lacks "010" line = true -> endsLine tail = true ->
  firstLine (String.append line tail) = line.
Proof.
  intros Hline Htail. induction line as [|ch line IH]; simpl in *.
  - destruct tail as [|ch tail]; [reflexivity|]. simpl in *. now rewrite Htail.
  - apply andb_true_iff in Hline as [Hch Hline]. apply negb_true_iff in Hch.
    rewrite Hch, (IH Hline). reflexivity.
Qed.

Lemma lacks_append ch a b :
  lacks ch (String.append a b) = lacks ch a && lacks ch b.
Proof.
  induction a as [|c a IH]; simpl; [reflexivity|]. rewrite IH.
  now rewrite andb_assoc.
Qed.

Lemma splitLastEquals_none s :
  lacks "=" s = true -> splitLastEquals s = None.
Proof.
  induction s as [|ch s IH]; simpl; [reflexivity|]. intros Hs.
  apply andb_true_iff in Hs as [Hch Hs]. apply negb_true_iff in Hch.
  now rewrite (IH Hs), Hch.
Qed.

Lemma splitLastEquals_append name text :
  lacks "=" text = true ->
  splitLastEquals (String.append name (String "=" text)) = Some (name, text).
Proof.
  intros Htext. induction name as [|ch name IH]; simpl.
  - now rewrite (splitLastEquals_none _ Htext).
  - now rewrite IH.
Qed.

Lemma FindStringSubmatch_entry prefix name text tail :
  lacks "010" name = true -> lacks "010" text = true -> lacks "=" text = true ->
  endsLine tail = true ->
  FindStringSubmatch prefix
    (String.append prefix
       (String.append (String.append name (String "=" text)) tail))
  = Some (name, text).
Proof.
  intros Hname Htext Heq Htail. unfold FindStringSubmatch.
  rewrite stripPrefix_append, firstLine_append; [|
    rewrite lacks_append; simpl; now rewrite Hname, Htext | exact Htail].
  now apply splitLastEquals_append.
Qed.

Section HarvestFacts.
Variable ToLower : string -> string.

Lemma harvest_snoc pluginEnv value :
  harvest ToLower (pluginEnv ++ [value]) =
    harvestEntry ToLower (harvest ToLower pluginEnv) value.
Proof. unfold harvest. now rewrite fold_left_app. Qed.

(** X17.  An environment entry made of the prefix PLUGIN_ or DRONE_, a
    name, an equals sign and a text without equals sign, up to the end of
    its first line, defines the lower-cased name as that text.  The name is
    everything up to the last equals sign of the line, so it may itself
    contain equals signs.  The entry coming last wins whatever its prefix,
    and no other variable changes. *)
Theorem harvest_splits_at_last_equals prefix pluginEnv name text tail :
  prefix = "PLUGIN_" \/ prefix = "DRONE_" ->
  lacks "010" name = true ->
  lacks "010" text = true ->
  lacks "=" text = true ->
  endsLine tail = true ->
  let entry :=
    String.append prefix
      (String.append (String.append name (String "=" text)) tail) in
  lookupText (ToLower name) (harvest ToLower (pluginEnv ++ [entry])) = Some text /\
  (forall key, key <> ToLower name ->
               lookupText key (harvest ToLower (pluginEnv ++ [entry]))
               = lookupText key (harvest ToLower pluginEnv)).
Proof.
  intros Hprefix Hname Htext Heq Htail. cbv zeta. rewrite harvest_snoc.
  pose proof (FindStringSubmatch_entry prefix name text tail Hname Htext Heq Htail)
    as Hmatch.
  assert (Hentry :
    harvestEntry ToLower (harvest ToLower pluginEnv)
      (String.append prefix
         (String.append (String.append name (String "=" text)) tail))
    = assign (harvest ToLower pluginEnv) (ToLower name) text).
  { unfold harvestEntry. destruct Hprefix as [-> | ->].
    - rewrite Hmatch. reflexivity.
    - rewrite Hmatch. reflexivity. }
  rewrite Hentry. unfold assign. simpl. split.
  - now rewrite String.eqb_refl.
  - intros key Hkey. apply not_eq_sym in Hkey. apply String.eqb_neq in Hkey.
    now rewrite Hkey.
Qed.

(** X18.  An environment entry that starts with neither PLUGIN_ nor DRONE_
    defines nothing, wherever it stands among the entries. *)
Theorem harvest_ignores_other_entries before value after :
  String.prefix "PLUGIN_" value = false ->
  String.prefix "DRONE_" value = false ->
  harvest ToLower (before ++ value :: after) = harvest ToLower (before ++ after).
Proof.
  intros Hplugin Hdrone. unfold harvest. rewrite !fold_left_app. cbn [fold_left].
  unfold harvestEntry at 2, FindStringSubmatch.
  rewrite (stripPrefix_none _ _ Hplugin), (stripPrefix_none _ _ Hdrone).
  reflexivity.
Qed.
End HarvestFacts.

Lemma harvest_splits_at_last_equals_witness :
  lookupText "url=http://kube?a"
    (harvest toLower ["PLUGIN_URL=old"; "DRONE_URL=http://kube?A=b
second line"]) = Some "b".
Proof.
  apply (harvest_splits_at_last_equals toLower "DRONE_" ["PLUGIN_URL=old"]
           "URL=http://kube?A" "b" "
second line"); try reflexivity.
  right. reflexivity.
Defined.

Lemma harvest_ignores_other_entries_witness :
  harvest toLower (["PLUGIN_NAME=web"] ++ "HOME=/root" :: ["DRONE_TAG=v1"])
  = harvest toLower (["PLUGIN_NAME=web"] ++ ["DRONE_TAG=v1"]).
Proof.
  apply (harvest_ignores_other_entries toLower ["PLUGIN_NAME=web"] "HOME=/root"
           ["DRONE_TAG=v1"]); reflexivity.
Defined.
